(** * Digital wallet: ledger routes and fraud detection

    Shallow embedding of the wallet routes ([/deposit], [/withdraw],
    [/transfer]) and of [detectFraud], with the Mongoose calls they make
    written out as operations on an explicit database.

    Conventions of the model.
    - Amounts and balances are JavaScript [Number]s, that is binary64
      floats.  The development has two embeddings of the routes.  The first
      takes the Numbers as exact rationals ([Q], compared up to [Qeq],
      [==]); it carries the properties of the control flow, of the
      comparisons and of what is and is not written, none of which states
      the result of a rounded operation.  The second, [Binary64], takes
      them as binary64 floats with the rounding of [+], [-], [/] and [*];
      it carries every property that says which number a balance or a
      threshold comes out as.
    - The request body's [amount] is a JSON number or is absent.
    - Time is the millisecond count of [Date.now()] ([Z]); one request reads
      the clock as a single instant [now].
    - A MongoDB session with a transaction is a staged copy of the database:
      calls that carry the session ([.session(session)], [{ session }]) read
      and write the staged copy; calls without it are outside the
      transaction and read the committed database, where writes of an open
      transaction are not visible; [commitTransaction] publishes the staged
      copy; [abortTransaction] and [endSession] drop it.  Requests are
      served one at a time.
    - Every awaited database call may reject; the oracle [Faults] says which
      ones do and with which [error.message]. *)

From Stdlib Require Import ZArith QArith Lqa Lia Ascii String List Sorted Floats.
From stdpp Require Import gmap strings list fin_maps.
Import ListNotations.

Local Open Scope string_scope.
Local Open Scope list_scope.

(** ** Data model *)

(** A Mongo [ObjectId]; [toString] is injective on it, so comparing the
    strings is comparing the ids. *)
Definition ObjectId := N.

(** [type: { enum: ['DEPOSIT', 'WITHDRAWAL', 'TRANSFER'] }] *)
Inductive TxType := DEPOSIT | WITHDRAWAL | TRANSFER.

Definition TxType_eqb (a b : TxType) : bool :=
  match a, b with
  | DEPOSIT, DEPOSIT | WITHDRAWAL, WITHDRAWAL | TRANSFER, TRANSFER => true
  | _, _ => false
  end.

Module Transaction.
(** [transactionSchema], with [createdAt] of [timestamps: true]. *)
Record t := mk {
  fromUserId : option ObjectId;
  toUserId : option ObjectId;
  amount : Q;
  type : TxType;
  currency : string;
  isFlagged : bool;
  flagReason : option string;
  isDeleted : bool;
  createdAt : Z
}.
End Transaction.

Module User.
(** Modelled from the spec: the [User] schema ([models/User.js]) is not
    part of the sources; an account has an identity, a lookup key (email)
    and an [isDeleted] flag. *)
Record t := mk {
  _id : ObjectId;
  email : string;
  isDeleted : bool
}.
End User.

Module Wallet.
(** Modelled from the spec: the [Wallet] schema ([models/Wallet.js]) is not
    part of the sources; a wallet has a [balance] and a [currency] (always
    present), and there is one wallet per account, keyed by its owner's
    id. *)
Record t := mk {
  balance : Q;
  currency : string
}.
End Wallet.

(** The three collections.  [transactions] is in insertion order; the
    position of a document stands for its [_id]. *)
Record Db := mkDb {
  users : list User.t;
  wallets : gmap ObjectId Wallet.t;
  transactions : list Transaction.t
}.

(** ** Numbers *)

Definition Qltb (a b : Q) : bool := negb (Qle_bool b a).

(** ** fraudDetection.js *)

Definition opt_eqb (o : option ObjectId) (userId : ObjectId) : bool :=
  match o with
  | Some i => N.eqb i userId
  | None => false
  end.

(** [Transaction.find({ fromUserId: userId, type: 'TRANSFER',
                        createdAt: { $gte: oneHourAgo } })] *)
Definition recentTransfers (Transactions : list Transaction.t) (now : Z)
    (userId : ObjectId) : list Transaction.t :=
  let oneHourAgo := (now - 60 * 60 * 1000)%Z in
  List.filter (fun t =>
      opt_eqb (Transaction.fromUserId t) userId
      && TxType_eqb (Transaction.type t) TRANSFER
      && (oneHourAgo <=? Transaction.createdAt t)%Z)
    Transactions.

(** [Transaction.find({ $or: [{ fromUserId: userId }, { toUserId: userId }],
                        createdAt: { $gte: pastMonth } })] *)
Definition recentTransactions (Transactions : list Transaction.t) (now : Z)
    (userId : ObjectId) : list Transaction.t :=
  let pastMonth := (now - 30 * 24 * 60 * 60 * 1000)%Z in
  List.filter (fun t =>
      (opt_eqb (Transaction.fromUserId t) userId
       || opt_eqb (Transaction.toUserId t) userId)
      && (pastMonth <=? Transaction.createdAt t)%Z)
    Transactions.

(** [recent.reduce((sum, t) => sum + t.amount, 0) / recent.length] *)
Definition avgAmount (recent : list Transaction.t) : Q :=
  (fold_left (fun sum t => sum + Transaction.amount t) recent 0
   / inject_Z (Z.of_nat (length recent)))%Q.

Definition VELOCITY := "Multiple transfers in a short period".
Definition LARGE := "Large withdrawal".
Definition OUTLIER := "Transaction amount significantly higher than average".

(** [detectFraud(userId, transaction)].  [Transactions] is what the two
    [Transaction.find] calls can see: they carry no session, so it is the
    committed collection. *)
Definition detectFraud (Transactions : list Transaction.t) (now : Z)
    (userId : ObjectId) (transaction : Transaction.t) : option string :=
  if TxType_eqb (Transaction.type transaction) TRANSFER
     && (5 <=? length (recentTransfers Transactions now userId))%nat
  then Some VELOCITY
  else if TxType_eqb (Transaction.type transaction) WITHDRAWAL
          && Qltb 1000%Q (Transaction.amount transaction)
  then Some LARGE
  else
    let recent := recentTransactions Transactions now userId in
    if (0 <? length recent)%nat
       && Qltb (avgAmount recent * 3)%Q (Transaction.amount transaction)
    then Some OUTLIER
    else None.

(** ** The route handlers' monad *)

(** What a handler sends: [res.status(s).json({ message })], or the
    status-200 body with the balance and the transaction document. *)
Inductive Response :=
| Json (status : Z) (message : string)
| Ok (message : string) (balance : Q) (transaction : Transaction.t).

(** The awaited calls of the handlers. *)
Inductive DbCall :=
| UserFindOne
| WalletFindOne (userId : ObjectId)
| WalletSave (userId : ObjectId)
| TransactionCreate
| DetectFraud
| TransactionSave
| CommitTransaction.

(** Which calls reject, and with which [error.message]. *)
Definition Faults := DbCall -> option string.

Definition no_faults : Faults := fun _ => None.

Record World := mkWorld {
  committed : Db;
  session : Db
}.

(** A statement of a handler body goes on, leaves by [return res...], or
    throws into the [catch]. *)
Inductive Outcome (A : Type) :=
| Next (a : A)
| Return (r : Response)
| Throw (message : string).
Arguments Next {A} a.
Arguments Return {A} r.
Arguments Throw {A} message.

Definition Handler (A : Type) := World -> Outcome A * World.

Definition ret {A} (a : A) : Handler A := fun w => (Next a, w).

Definition bind {A B} (m : Handler A) (k : A -> Handler B) : Handler B :=
  fun w =>
    match m w with
    | (Next a, w') => k a w'
    | (Return r, w') => (Return r, w')
    | (Throw e, w') => (Throw e, w')
    end.

Notation "'let!' x ':=' m 'in' k" := (bind m (fun x => k))
  (at level 10, x binder, m at level 200, k at level 200).

Definition respond {A} (r : Response) : Handler A := fun w => (Return r, w).

(** [await call]: rejects when the oracle says so. *)
Definition await (fl : Faults) (c : DbCall) : Handler unit :=
  fun w => match fl c with
           | Some e => (Throw e, w)
           | None => (Next tt, w)
           end.

Definition abortTransaction : Handler unit :=
  fun w => (Next tt, mkWorld (committed w) (committed w)).

Definition commitTransaction (fl : Faults) : Handler unit :=
  let! _ := await fl CommitTransaction in
  fun w => (Next tt, mkWorld (session w) (session w)).

(** [User.findOne({ email: toEmail, isDeleted: false })], without session. *)
Definition User_findOne (fl : Faults) (toEmail : string)
    : Handler (option User.t) :=
  let! _ := await fl UserFindOne in
  fun w => (Next (List.find (fun u => String.eqb (User.email u) toEmail
                                      && negb (User.isDeleted u))
                            (users (committed w))), w).

(** [Wallet.findOne({ userId }).session(session)] *)
Definition Wallet_findOne (fl : Faults) (userId : ObjectId)
    : Handler (option Wallet.t) :=
  let! _ := await fl (WalletFindOne userId) in
  fun w => (Next (wallets (session w) !! userId), w).

(** [wallet.save({ session })] *)
Definition Wallet_save (fl : Faults) (userId : ObjectId) (wallet : Wallet.t)
    : Handler unit :=
  let! _ := await fl (WalletSave userId) in
  fun w => (Next tt,
            mkWorld (committed w)
              (mkDb (users (session w))
                    (<[userId := wallet]> (wallets (session w)))
                    (transactions (session w)))).

(** [Transaction.create([doc], { session })]: the document is appended; its
    position is the handle for a later [save]. *)
Definition Transaction_create (fl : Faults) (doc : Transaction.t)
    : Handler (nat * Transaction.t) :=
  let! _ := await fl TransactionCreate in
  fun w => (Next (length (transactions (session w)), doc),
            mkWorld (committed w)
              (mkDb (users (session w)) (wallets (session w))
                    (transactions (session w) ++ [doc]))).

(** [transaction[0].save({ session })] *)
Definition Transaction_save (fl : Faults) (i : nat) (doc : Transaction.t)
    : Handler unit :=
  let! _ := await fl TransactionSave in
  fun w => (Next tt,
            mkWorld (committed w)
              (mkDb (users (session w)) (wallets (session w))
                    (<[i := doc]> (transactions (session w))))).

(** [await detectFraud(userId, transaction)]: the finds read the committed
    collection. *)
Definition detectFraud_call (fl : Faults) (now : Z) (userId : ObjectId)
    (transaction : Transaction.t) : Handler (option string) :=
  let! _ := await fl DetectFraud in
  fun w => (Next (detectFraud (transactions (committed w)) now userId
                              transaction), w).

(** The lines shared by the three handlers:
[[
    const isFraudulent = await detectFraud(req.user.userId, transaction[0]);
    if (isFraudulent) {
      transaction[0].isFlagged = true;
      transaction[0].flagReason = isFraudulent;
      await transaction[0].save({ session });
    }
]]
    The result is the document as it is in memory afterwards. *)
Definition flag (transaction : Transaction.t) (reason : string)
    : Transaction.t :=
  Transaction.mk (Transaction.fromUserId transaction)
    (Transaction.toUserId transaction) (Transaction.amount transaction)
    (Transaction.type transaction) (Transaction.currency transaction)
    true (Some reason) (Transaction.isDeleted transaction)
    (Transaction.createdAt transaction).

Definition annotate (fl : Faults) (now : Z) (userId : ObjectId)
    (created : nat * Transaction.t) : Handler Transaction.t :=
  let! isFraudulent := detectFraud_call fl now userId (snd created) in
  match isFraudulent with
  | Some reason =>
      let! _ := Transaction_save fl (fst created) (flag (snd created) reason) in
      ret (flag (snd created) reason)
  | None => ret (snd created)
  end.

(** [try { body } catch (error) { abort; 500 } finally { endSession }],
    entered with a started session and transaction.  Ending the session
    drops whatever was not committed, so the database left behind is the
    committed one. *)
Definition route (body : Handler Response) (db : Db) : Response * Db :=
  match body (mkWorld db db) with
  | (Next r, w) => (r, committed w)
  | (Return r, w) => (r, committed w)
  | (Throw e, w) => (Json 500 e, committed w)
  end.

(** ** wallet.js *)

Definition INVALID_AMOUNT := Json 400 "Valid amount is required".
Definition INVALID_TRANSFER :=
  Json 400 "Valid recipient email and amount are required".
Definition WALLET_NOT_FOUND := Json 404 "Wallet not found".
Definition INSUFFICIENT_FUNDS := Json 400 "Insufficient funds".
Definition RECIPIENT_NOT_FOUND := Json 404 "Recipient not found".
Definition SELF_TRANSFER := Json 400 "Cannot transfer to your own account".
Definition RECIPIENT_WALLET_NOT_FOUND := Json 404 "Recipient wallet not found".

(** [!amount || amount <= 0] for an amount that is present. *)
Definition bad_amount (amount : Q) : bool :=
  Qeq_bool amount 0%Q || Qle_bool amount 0%Q.

(** [router.post('/deposit')]; [amount] is [req.body.amount], [None] when
    the body has none. *)
Definition deposit_body (fl : Faults) (now : Z) (userId : ObjectId)
    (amount : option Q) : Handler Response :=
  match amount with
  | None => respond INVALID_AMOUNT
  | Some amount =>
    if bad_amount amount then respond INVALID_AMOUNT else
    let! wallet := Wallet_findOne fl userId in
    match wallet with
    | None => let! _ := abortTransaction in respond WALLET_NOT_FOUND
    | Some wallet =>
      let wallet := Wallet.mk (Wallet.balance wallet + amount)%Q
                              (Wallet.currency wallet) in
      let! _ := Wallet_save fl userId wallet in
      let! transaction := Transaction_create fl
        (Transaction.mk None (Some userId) amount DEPOSIT
           (Wallet.currency wallet) false None false now) in
      let! transaction0 := annotate fl now userId transaction in
      let! _ := commitTransaction fl in
      respond (Ok "Deposit successful" (Wallet.balance wallet) transaction0)
    end
  end.

Definition deposit fl now userId amount := route (deposit_body fl now userId amount).

(** [router.post('/withdraw')] *)
Definition withdraw_body (fl : Faults) (now : Z) (userId : ObjectId)
    (amount : option Q) : Handler Response :=
  match amount with
  | None => respond INVALID_AMOUNT
  | Some amount =>
    if bad_amount amount then respond INVALID_AMOUNT else
    let! wallet := Wallet_findOne fl userId in
    match wallet with
    | None => let! _ := abortTransaction in respond WALLET_NOT_FOUND
    | Some wallet =>
      if Qltb (Wallet.balance wallet) amount
      then let! _ := abortTransaction in respond INSUFFICIENT_FUNDS
      else
      let wallet := Wallet.mk (Wallet.balance wallet - amount)%Q
                              (Wallet.currency wallet) in
      let! _ := Wallet_save fl userId wallet in
      let! transaction := Transaction_create fl
        (Transaction.mk (Some userId) None amount WITHDRAWAL
           (Wallet.currency wallet) false None false now) in
      let! transaction0 := annotate fl now userId transaction in
      let! _ := commitTransaction fl in
      respond (Ok "Withdrawal successful" (Wallet.balance wallet) transaction0)
    end
  end.

Definition withdraw fl now userId amount := route (withdraw_body fl now userId amount).

(** [router.post('/transfer')]; [toEmail] is [req.body.toEmail]. *)
Definition transfer_body (fl : Faults) (now : Z) (userId : ObjectId)
    (toEmail : option string) (amount : option Q) : Handler Response :=
  match toEmail, amount with
  | Some toEmail, Some amount =>
    if String.eqb toEmail "" || bad_amount amount
    then respond INVALID_TRANSFER else
    let! recipient := User_findOne fl toEmail in
    match recipient with
    | None => let! _ := abortTransaction in respond RECIPIENT_NOT_FOUND
    | Some recipient =>
      if N.eqb (User._id recipient) userId
      then let! _ := abortTransaction in respond SELF_TRANSFER
      else
      let! senderWallet := Wallet_findOne fl userId in
      match senderWallet with
      | None => let! _ := abortTransaction in respond INSUFFICIENT_FUNDS
      | Some senderWallet =>
        if Qltb (Wallet.balance senderWallet) amount
        then let! _ := abortTransaction in respond INSUFFICIENT_FUNDS
        else
        let! recipientWallet := Wallet_findOne fl (User._id recipient) in
        match recipientWallet with
        | None => let! _ := abortTransaction in respond RECIPIENT_WALLET_NOT_FOUND
        | Some recipientWallet =>
          let senderWallet :=
            Wallet.mk (Wallet.balance senderWallet - amount)%Q
                      (Wallet.currency senderWallet) in
          let recipientWallet :=
            Wallet.mk (Wallet.balance recipientWallet + amount)%Q
                      (Wallet.currency recipientWallet) in
          let! _ := Wallet_save fl userId senderWallet in
          let! _ := Wallet_save fl (User._id recipient) recipientWallet in
          let! transaction := Transaction_create fl
            (Transaction.mk (Some userId) (Some (User._id recipient)) amount
               TRANSFER (Wallet.currency senderWallet) false None false now) in
          let! transaction0 := annotate fl now userId transaction in
          let! _ := commitTransaction fl in
          respond (Ok "Transfer successful" (Wallet.balance senderWallet)
                      transaction0)
        end
      end
    end
  | _, _ => respond INVALID_TRANSFER
  end.

Definition transfer fl now userId toEmail amount :=
  route (transfer_body fl now userId toEmail amount).

(** ** What a request leaves behind *)

(** The transaction document after the annotation lines, as classified over
    the committed collection [Transactions]. *)
Definition annotated (Transactions : list Transaction.t) (now : Z)
    (userId : ObjectId) (doc : Transaction.t) : Transaction.t :=
  match detectFraud Transactions now userId doc with
  | Some reason => flag doc reason
  | None => doc
  end.

(** The answer is the status-200 body. *)
Definition is_ok (r : Response) : bool :=
  match r with
  | Ok _ _ _ => true
  | Json _ _ => false
  end.

(** The document [/deposit] creates, and the database it commits. *)
Definition deposit_doc (now : Z) (userId : ObjectId) (amount : Q)
    (wallet : Wallet.t) : Transaction.t :=
  Transaction.mk None (Some userId) amount DEPOSIT (Wallet.currency wallet)
    false None false now.

Definition deposited (now : Z) (userId : ObjectId) (amount : Q)
    (wallet : Wallet.t) (db : Db) : Db :=
  mkDb (users db)
    (<[userId := Wallet.mk (Wallet.balance wallet + amount)%Q
                           (Wallet.currency wallet)]> (wallets db))
    (transactions db
     ++ [annotated (transactions db) now userId
           (deposit_doc now userId amount wallet)]).

(** The document [/withdraw] creates, and the database it commits. *)
Definition withdrawal_doc (now : Z) (userId : ObjectId) (amount : Q)
    (wallet : Wallet.t) : Transaction.t :=
  Transaction.mk (Some userId) None amount WITHDRAWAL
    (Wallet.currency wallet) false None false now.

Definition withdrawn (now : Z) (userId : ObjectId) (amount : Q)
    (wallet : Wallet.t) (db : Db) : Db :=
  mkDb (users db)
    (<[userId := Wallet.mk (Wallet.balance wallet - amount)%Q
                           (Wallet.currency wallet)]> (wallets db))
    (transactions db
     ++ [annotated (transactions db) now userId
           (withdrawal_doc now userId amount wallet)]).

(** [User.findOne({ email: toEmail, isDeleted: false })] as a function of
    the collection. *)
Definition resolve (toEmail : string) (db : Db) : option User.t :=
  List.find (fun u => String.eqb (User.email u) toEmail
                      && negb (User.isDeleted u)) (users db).

(** The document [/transfer] creates, and the database it commits. *)
Definition transfer_doc (now : Z) (userId recipientId : ObjectId)
    (amount : Q) (senderWallet : Wallet.t) : Transaction.t :=
  Transaction.mk (Some userId) (Some recipientId) amount TRANSFER
    (Wallet.currency senderWallet) false None false now.

Definition transferred (now : Z) (userId recipientId : ObjectId)
    (amount : Q) (senderWallet recipientWallet : Wallet.t) (db : Db) : Db :=
  mkDb (users db)
    (<[recipientId := Wallet.mk (Wallet.balance recipientWallet + amount)%Q
                                (Wallet.currency recipientWallet)]>
       (<[userId := Wallet.mk (Wallet.balance senderWallet - amount)%Q
                              (Wallet.currency senderWallet)]>
          (wallets db)))
    (transactions db
     ++ [annotated (transactions db) now userId
           (transfer_doc now userId recipientId amount senderWallet)]).

(** ** Requests, and requests served one after the other *)

(** A request to one of the three routes. *)
Inductive Request :=
| Deposit (amount : option Q)
| Withdraw (amount : option Q)
| Transfer (toEmail : option string) (amount : option Q).

Definition handle (fl : Faults) (now : Z) (userId : ObjectId)
    (req : Request) : Db -> Response * Db :=
  match req with
  | Deposit amount => deposit fl now userId amount
  | Withdraw amount => withdraw fl now userId amount
  | Transfer toEmail amount => transfer fl now userId toEmail amount
  end.

(** One [/transfer] request after the other, by the same account; each
    request comes with the clock reading at which it is served. *)
Fixpoint transfer_all (fl : Faults) (userId : ObjectId)
    (reqs : list (Z * option string * option Q)) (db : Db)
    : list Response * Db :=
  match reqs with
  | [] => ([], db)
  | (now, toEmail, amount) :: reqs =>
      let (r, db1) := transfer fl now userId toEmail amount db in
      let (rs, db2) := transfer_all fl userId reqs db1 in
      (r :: rs, db2)
  end.

(** The request is served within the hour that starts at [t0]. *)
Definition within_hour (t0 : Z) (req : Z * option string * option Q) : Prop :=
  (t0 <= fst (fst req) <= t0 + 3600000)%Z.

(** ** Notions the statements use *)

(** [req.body.amount] is missing, zero or negative. *)
Definition invalid_amount (amount : option Q) : Prop :=
  match amount with
  | None => True
  | Some a => (a <= 0)%Q
  end.

(** Every wallet of the database has a balance [>= 0]. *)
Definition balances_nonneg (db : Db) : Prop :=
  map_Forall (fun _ wallet => (0 <= Wallet.balance wallet)%Q) (wallets db).

#[local] Instance Qle_decision (a b : Q) : Decision (a <= b)%Q :=
  Z_le_dec (Qnum a * QDen b) (Qnum b * QDen a).

(** The three calls between the staged financial writes and the answer. *)
Definition annotation_passed (fl : Faults) (verdict : option string) : Prop :=
  fl DetectFraud = None
  /\ (verdict = None \/ fl TransactionSave = None)
  /\ fl CommitTransaction = None.

(** An oracle under which only the flag write rejects. *)
Definition flag_write_fails : Faults :=
  fun c => match c with
           | TransactionSave => Some "flag write failed"
           | _ => None
           end.

(** ** A small database for the worked scenarios

    Three accounts; the first two have wallets, in different currencies; the
    third has none.  The ledger is empty. *)

Definition alice : ObjectId := 1%N.
Definition bob : ObjectId := 2%N.
Definition carol : ObjectId := 3%N.

Definition example_db : Db :=
  mkDb [User.mk alice "alice@example.com" false;
        User.mk bob "bob@example.com" false;
        User.mk carol "carol@example.com" false]
       (<[alice := Wallet.mk 2000%Q "USD"]>
          (<[bob := Wallet.mk 0%Q "EUR"]> ∅))
       [].

Definition example_transfer_doc : Transaction.t :=
  Transaction.mk (Some alice) (Some bob) 10%Q TRANSFER "USD" false None false
    0%Z.

Definition example_transfer_db : Db :=
  mkDb (users example_db)
       (<[alice := Wallet.mk 1990%Q "USD"]>
          (<[bob := Wallet.mk 10%Q "EUR"]> ∅))
       [example_transfer_doc].

Definition to_bob (now : Z) : Z * option string * option Q :=
  (now, Some "bob@example.com", Some 10%Q).

(** Six transfers of 10 from alice to bob, ten minutes apart. *)
Definition six_requests : list (Z * option string * option Q) :=
  [to_bob 0; to_bob 600000; to_bob 1200000; to_bob 1800000; to_bob 2400000;
   to_bob 3000000].

Definition sixth_doc : Transaction.t :=
  Transaction.mk (Some alice) (Some bob) 10%Q TRANSFER "USD" true
    (Some "Multiple transfers in a short period") false 3000000.

(** The first five of those requests. *)
Definition five_requests : list (Z * option string * option Q) :=
  [to_bob 0; to_bob 600000; to_bob 1200000; to_bob 1800000; to_bob 2400000].

Definition fifth_doc : Transaction.t :=
  Transaction.mk (Some alice) (Some bob) 10%Q TRANSFER "USD" false None false
    2400000.

(** ** The read routes of wallet.js *)

(** What a read-only route sends: a status with a message, or the
    status-200 body. *)
Inductive Reply (A : Type) :=
| Failed (status : Z) (message : string)
| Sent (body : A).
Arguments Failed {A} status message.
Arguments Sent {A} body.

(** [router.get('/balance')]; [rejects] is the [error.message] when
    [Wallet.findOne] rejects.  The body is [{ balance, currency }]. *)
Definition get_balance (rejects : option string) (userId : ObjectId)
    (db : Db) : Reply (Q * string) :=
  match rejects with
  | Some e => Failed 500 e
  | None =>
      match wallets db !! userId with
      | None => Failed 404 "Wallet not found"
      | Some wallet => Sent (Wallet.balance wallet, Wallet.currency wallet)
      end
  end.

(** [.sort({ createdAt: -1 })]: most recent first.  MongoDB does not say in
    which order documents with equal [createdAt] come out; here the one
    inserted later in the collection comes later. *)
Fixpoint insert_desc (t : Transaction.t) (l : list Transaction.t)
    : list Transaction.t :=
  match l with
  | [] => [t]
  | x :: l' =>
      if (Transaction.createdAt x <=? Transaction.createdAt t)%Z
      then t :: l
      else x :: insert_desc t l'
  end.

Definition sort_createdAt_desc (l : list Transaction.t)
    : list Transaction.t :=
  fold_right insert_desc [] l.

(** The filter of [router.get('/transactions')]:
    [{ $or: [{ fromUserId }, { toUserId }], isDeleted: false }]. *)
Definition in_history (userId : ObjectId) (t : Transaction.t) : bool :=
  (opt_eqb (Transaction.fromUserId t) userId
   || opt_eqb (Transaction.toUserId t) userId)
  && negb (Transaction.isDeleted t).

(** [router.get('/transactions')] *)
Definition get_transactions (rejects : option string) (userId : ObjectId)
    (db : Db) : Reply (list Transaction.t) :=
  match rejects with
  | Some e => Failed 500 e
  | None =>
      Sent (sort_createdAt_desc
              (List.filter (in_history userId) (transactions db)))
  end.

(** ** admin.js *)

(** [isAdmin]: the middleware in front of every admin route;
    [reqIsAdmin] is [req.user.isAdmin], [next] what the route behind it
    sends. *)
Definition isAdmin {A} (reqIsAdmin : bool) (next : Reply A) : Reply A :=
  if negb reqIsAdmin then Failed 403 "Admin access required" else next.

(** [.populate(path, 'email')]: the referenced user's [_id] and [email], or
    nothing when the reference is unset or no user has that id. *)
Definition populate (Users : list User.t) (ref : option ObjectId)
    : option (ObjectId * string) :=
  match ref with
  | None => None
  | Some id =>
      match List.find (fun u => N.eqb (User._id u) id) Users with
      | Some u => Some (User._id u, User.email u)
      | None => None
      end
  end.

Module Populated.
(** A transaction document with [fromUserId] and [toUserId] populated. *)
Record t := mk {
  doc : Transaction.t;
  fromUser : option (ObjectId * string);
  toUser : option (ObjectId * string)
}.
End Populated.

(** [router.get('/flagged-transactions', isAdmin, ...)] *)
Definition flagged_transactions (rejects : option string)
    (reqIsAdmin : bool) (db : Db) : Reply (list Populated.t) :=
  isAdmin reqIsAdmin
    match rejects with
    | Some e => Failed 500 e
    | None =>
        Sent (List.map
                (fun t => Populated.mk t
                            (populate (users db) (Transaction.fromUserId t))
                            (populate (users db) (Transaction.toUserId t)))
                (sort_createdAt_desc
                   (List.filter
                      (fun t => Transaction.isFlagged t
                                && negb (Transaction.isDeleted t))
                      (transactions db))))
    end.

(** ** middleware/auth.js *)

(** [authHeader.split(' ')] *)
Fixpoint split_space (s : string) : list string :=
  match s with
  | EmptyString => [EmptyString]
  | String c s' =>
      if Ascii.eqb c " "%char then EmptyString :: split_space s'
      else match split_space s' with
           | [] => [String c EmptyString]
           | w :: ws => String c w :: ws
           end
  end.

(** [authHeader && authHeader.split(' ')[1]], with [None] for a value that
    is [undefined]. *)
Definition token_of (authorization : option string) : option string :=
  match authorization with
  | None => None
  | Some authHeader =>
      if String.eqb authHeader "" then Some ""
      else nth_error (split_space authHeader) 1
  end.

Module Req.
(** [req.user], as [authenticateToken] builds it. *)
Record user := mk {
  userId : ObjectId;
  email : string;
  isAdmin : bool
}.
End Req.

(** What [authenticateToken] does: answers itself, or sets [req.user] and
    calls [next()]. *)
Inductive AuthResult :=
| Denied (status : Z) (message : string)
| Next_ (reqUser : Req.user).

Section Auth.

(** [jwt.verify(token, JWT_SECRET)]: [None] when it throws, otherwise the
    [userId] of the decoded payload, if it has one. *)
Variable jwt_verify : string -> option (option ObjectId).

(** The [isAdmin] field of a user document; the [User] record above does not
    carry it. *)
Variable isAdmin_field : User.t -> bool.

(** [exports.authenticateToken]; [findById_rejects] says whether
    [User.findById] rejects. *)
Definition authenticateToken (findById_rejects : bool)
    (authorization : option string) (db : Db) : AuthResult :=
  match token_of authorization with
  | None => Denied 401 "Access denied"
  | Some token =>
      if String.eqb token "" then Denied 401 "Access denied" else
      match jwt_verify token with
      | None => Denied 403 "Invalid token"
      | Some decoded_userId =>
          if findById_rejects then Denied 403 "Invalid token" else
          let user :=
            match decoded_userId with
            | None => None
            | Some id =>
                List.find (fun u => N.eqb (User._id u) id) (users db)
            end in
          match user with
          | None => Denied 401 "User not found or deleted"
          | Some user =>
              if User.isDeleted user
              then Denied 401 "User not found or deleted"
              else Next_ (Req.mk (User._id user) (User.email user)
                            (isAdmin_field user))
          end
      end
  end.

End Auth.

(** ** Notions the further properties use *)

(** The accounts whose wallet a request may write: the actor, and for a
    transfer the account the email resolves to. *)
Definition parties (userId : ObjectId) (req : Request) (db : Db)
    : list ObjectId :=
  match req with
  | Transfer (Some e) _ =>
      match resolve e db with
      | Some recipient => [userId; User._id recipient]
      | None => [userId]
      end
  | _ => [userId]
  end.

(** [a] comes before [b] in a list sorted by [createdAt: -1]. *)
Definition newer_first (a b : Transaction.t) : Prop :=
  (Transaction.createdAt b <= Transaction.createdAt a)%Z.

(** The transaction has [userId] as source or as destination. *)
Definition touches (userId : ObjectId) (t : Transaction.t) : Prop :=
  Transaction.fromUserId t = Some userId
  \/ Transaction.toUserId t = Some userId.

(** The shape of the documents the routes write: a positive amount; a flag
    exactly when there is a reason, the reason being one of the detector's
    three; a destination only for a DEPOSIT, a source only for a
    WITHDRAWAL, and two different parties for a TRANSFER. *)
Definition well_formed (t : Transaction.t) : Prop :=
  (0 < Transaction.amount t)%Q
  /\ Transaction.isFlagged t
     = match Transaction.flagReason t with
       | Some _ => true
       | None => false
       end
  /\ (Transaction.flagReason t = None
      \/ Transaction.flagReason t = Some VELOCITY
      \/ Transaction.flagReason t = Some LARGE
      \/ Transaction.flagReason t = Some OUTLIER)
  /\ match Transaction.type t with
     | DEPOSIT =>
         Transaction.fromUserId t = None
         /\ exists y, Transaction.toUserId t = Some y
     | WITHDRAWAL =>
         (exists x, Transaction.fromUserId t = Some x)
         /\ Transaction.toUserId t = None
     | TRANSFER =>
         exists x y, Transaction.fromUserId t = Some x
                     /\ Transaction.toUserId t = Some y /\ x <> y
     end.

(** Two documents that agree on everything [detectFraud] reads of a past
    transaction: the parties, the amount, the type and the creation time.
    They may differ in [isDeleted], [isFlagged], [flagReason] and
    [currency]. *)
Definition same_for_detector (t t' : Transaction.t) : Prop :=
  Transaction.fromUserId t = Transaction.fromUserId t'
  /\ Transaction.toUserId t = Transaction.toUserId t'
  /\ Transaction.amount t = Transaction.amount t'
  /\ Transaction.type t = Transaction.type t'
  /\ Transaction.createdAt t = Transaction.createdAt t'.

(** Soft deletion of a transaction: [isDeleted] set, the rest kept. *)
Definition soft_delete (t : Transaction.t) : Transaction.t :=
  Transaction.mk (Transaction.fromUserId t) (Transaction.toUserId t)
    (Transaction.amount t) (Transaction.type t) (Transaction.currency t)
    (Transaction.isFlagged t) (Transaction.flagReason t) true
    (Transaction.createdAt t).

(** The string has no space in it. *)
Fixpoint no_space (s : string) : bool :=
  match s with
  | EmptyString => true
  | String c s' => negb (Ascii.eqb c " "%char) && no_space s'
  end.

(** ** The wallet routes behind the authentication *)

(** [app.use('/api/wallet', authenticateToken, walletRoutes)], for the three
    POST routes: the request reaches the route only when
    [authenticateToken] calls [next()], and the route's actor is then
    [req.user.userId]. *)
Definition api_wallet (jwt_verify : string -> option (option ObjectId))
    (isAdmin_field : User.t -> bool) (findById_rejects : bool)
    (fl : Faults) (now : Z) (authorization : option string) (req : Request)
    (db : Db) : Response * Db :=
  match authenticateToken jwt_verify isAdmin_field findById_rejects
          authorization db with
  | Denied status message => (Json status message, db)
  | Next_ reqUser => handle fl now (Req.userId reqUser) req db
  end.

(** ** A token verifier and a closed account for the worked scenarios *)

Definition dave : ObjectId := 4%N.

(** Accepts two tokens, one issued to alice and one issued to dave. *)
Definition example_verify (token : string) : option (option ObjectId) :=
  if String.eqb token "token-of-alice" then Some (Some alice)
  else if String.eqb token "token-of-dave" then Some (Some dave)
  else None.

Definition example_isAdmin (user : User.t) : bool :=
  N.eqb (User._id user) alice.

(** The scenario database after dave was soft-deleted; he still has a
    wallet. *)
Definition example_db_closed : Db :=
  mkDb (users example_db ++ [User.mk dave "dave@example.com" true])
       (<[dave := Wallet.mk 70%Q "USD"]> (wallets example_db))
       [].

(** * The same routes with Numbers as JavaScript has them

    [wallet.balance += amount], [-= amount], the [reduce] sum, the division
    and the multiplication by 3 are operations on binary64 floats, each
    rounded to nearest.  Where a property states which number comes out of
    such an operation, the exact rationals above are not the program; this
    module embeds the three POST routes and [detectFraud] again with
    [amount] and [balance] as binary64 floats (Rocq's primitive floats, the
    same IEEE 754 format and rounding).  The flow, the session and the
    oracle are as above.  Mongoose refuses to cast a NaN to a Number, so a
    [save] of a NaN balance rejects; that rejection is one of those the
    oracle stands for, and a statement that a request succeeds assumes the
    new balances are not NaN. *)
Module Binary64.

#[local] Set Warnings "-inexact-float".

Module Transaction.
(** [transactionSchema]; [amount] is a [Number]. *)
Record t := mk {
  fromUserId : option ObjectId;
  toUserId : option ObjectId;
  amount : float;
  type : TxType;
  currency : string;
  isFlagged : bool;
  flagReason : option string;
  isDeleted : bool;
  createdAt : Z
}.
End Transaction.

Module Wallet.
(** Modelled from the spec: the [Wallet] schema ([models/Wallet.js]) is not
    part of the sources; a wallet has a [balance], a [Number], and a
    [currency], and there is one wallet per account, keyed by its owner's
    id. *)
Record t := mk {
  balance : float;
  currency : string
}.
End Wallet.

Record Db := mkDb {
  users : list User.t;
  wallets : gmap ObjectId Wallet.t;
  transactions : list Transaction.t
}.

(** [array.length] as a Number; exact for every length an array can
    have. *)
Definition of_length (n : nat) : float :=
  PrimFloat.of_uint63 (Uint63.of_Z (Z.of_nat n)).

(** The rational a float stands for, when it is finite, in lowest
    terms. *)
Definition exact (x : float) : option Q :=
  match Prim2SF x with
  | S754_zero _ => Some 0%Q
  | S754_finite s m e =>
      Some (Qred (inject_Z (if s then Z.neg m else Z.pos m) * Qpower 2 e))
  | S754_infinity _ => None
  | S754_nan => None
  end.

(** ** fraudDetection.js *)

Definition recentTransfers (Transactions : list Transaction.t) (now : Z)
    (userId : ObjectId) : list Transaction.t :=
  let oneHourAgo := (now - 60 * 60 * 1000)%Z in
  List.filter (fun t =>
      opt_eqb (Transaction.fromUserId t) userId
      && TxType_eqb (Transaction.type t) TRANSFER
      && (oneHourAgo <=? Transaction.createdAt t)%Z)
    Transactions.

Definition recentTransactions (Transactions : list Transaction.t) (now : Z)
    (userId : ObjectId) : list Transaction.t :=
  let pastMonth := (now - 30 * 24 * 60 * 60 * 1000)%Z in
  List.filter (fun t =>
      (opt_eqb (Transaction.fromUserId t) userId
       || opt_eqb (Transaction.toUserId t) userId)
      && (pastMonth <=? Transaction.createdAt t)%Z)
    Transactions.

(** [recent.reduce((sum, t) => sum + t.amount, 0) / recent.length]: the sum
    runs from 0 through the array in order, rounding at each addition, and
    the division rounds once more. *)
Definition avgAmount (recent : list Transaction.t) : float :=
  (fold_left (fun sum t => sum + Transaction.amount t) recent 0
   / of_length (length recent))%float.

(** [detectFraud(userId, transaction)] over what its finds can see. *)
Definition detectFraud (Transactions : list Transaction.t) (now : Z)
    (userId : ObjectId) (transaction : Transaction.t) : option string :=
  if TxType_eqb (Transaction.type transaction) TRANSFER
     && (5 <=? length (recentTransfers Transactions now userId))%nat
  then Some VELOCITY
  else if TxType_eqb (Transaction.type transaction) WITHDRAWAL
          && (1000 <? Transaction.amount transaction)%float
  then Some LARGE
  else
    let recent := recentTransactions Transactions now userId in
    if (0 <? length recent)%nat
       && (avgAmount recent * 3 <? Transaction.amount transaction)%float
    then Some OUTLIER
    else None.

(** ** The route handlers' monad *)

Inductive Response :=
| Json (status : Z) (message : string)
| Ok (message : string) (balance : float) (transaction : Transaction.t).

Record World := mkWorld {
  committed : Db;
  session : Db
}.

Inductive Outcome (A : Type) :=
| Next (a : A)
| Return (r : Response)
| Throw (message : string).
Arguments Next {A} a.
Arguments Return {A} r.
Arguments Throw {A} message.

Definition Handler (A : Type) := World -> Outcome A * World.

Definition ret {A} (a : A) : Handler A := fun w => (Next a, w).

Definition bind {A B} (m : Handler A) (k : A -> Handler B) : Handler B :=
  fun w =>
    match m w with
    | (Next a, w') => k a w'
    | (Return r, w') => (Return r, w')
    | (Throw e, w') => (Throw e, w')
    end.

Notation "'let*' x ':=' m 'in' k" := (bind m (fun x => k))
  (at level 10, x binder, m at level 200, k at level 200).

Definition respond {A} (r : Response) : Handler A := fun w => (Return r, w).

Definition await (fl : Faults) (c : DbCall) : Handler unit :=
  fun w => match fl c with
           | Some e => (Throw e, w)
           | None => (Next tt, w)
           end.

Definition abortTransaction : Handler unit :=
  fun w => (Next tt, mkWorld (committed w) (committed w)).

Definition commitTransaction (fl : Faults) : Handler unit :=
  let* _ := await fl CommitTransaction in
  fun w => (Next tt, mkWorld (session w) (session w)).

Definition User_findOne (fl : Faults) (toEmail : string)
    : Handler (option User.t) :=
  let* _ := await fl UserFindOne in
  fun w => (Next (List.find (fun u => String.eqb (User.email u) toEmail
                                      && negb (User.isDeleted u))
                            (users (committed w))), w).

Definition Wallet_findOne (fl : Faults) (userId : ObjectId)
    : Handler (option Wallet.t) :=
  let* _ := await fl (WalletFindOne userId) in
  fun w => (Next (wallets (session w) !! userId), w).

Definition Wallet_save (fl : Faults) (userId : ObjectId) (wallet : Wallet.t)
    : Handler unit :=
  let* _ := await fl (WalletSave userId) in
  fun w => (Next tt,
            mkWorld (committed w)
              (mkDb (users (session w))
                    (<[userId := wallet]> (wallets (session w)))
                    (transactions (session w)))).

Definition Transaction_create (fl : Faults) (doc : Transaction.t)
    : Handler (nat * Transaction.t) :=
  let* _ := await fl TransactionCreate in
  fun w => (Next (length (transactions (session w)), doc),
            mkWorld (committed w)
              (mkDb (users (session w)) (wallets (session w))
                    (transactions (session w) ++ [doc]))).

Definition Transaction_save (fl : Faults) (i : nat) (doc : Transaction.t)
    : Handler unit :=
  let* _ := await fl TransactionSave in
  fun w => (Next tt,
            mkWorld (committed w)
              (mkDb (users (session w)) (wallets (session w))
                    (<[i := doc]> (transactions (session w))))).

Definition detectFraud_call (fl : Faults) (now : Z) (userId : ObjectId)
    (transaction : Transaction.t) : Handler (option string) :=
  let* _ := await fl DetectFraud in
  fun w => (Next (detectFraud (transactions (committed w)) now userId
                              transaction), w).

Definition flag (transaction : Transaction.t) (reason : string)
    : Transaction.t :=
  Transaction.mk (Transaction.fromUserId transaction)
    (Transaction.toUserId transaction) (Transaction.amount transaction)
    (Transaction.type transaction) (Transaction.currency transaction)
    true (Some reason) (Transaction.isDeleted transaction)
    (Transaction.createdAt transaction).

Definition annotate (fl : Faults) (now : Z) (userId : ObjectId)
    (created : nat * Transaction.t) : Handler Transaction.t :=
  let* isFraudulent := detectFraud_call fl now userId (snd created) in
  match isFraudulent with
  | Some reason =>
      let* _ := Transaction_save fl (fst created) (flag (snd created) reason) in
      ret (flag (snd created) reason)
  | None => ret (snd created)
  end.

Definition route (body : Handler Response) (db : Db) : Response * Db :=
  match body (mkWorld db db) with
  | (Next r, w) => (r, committed w)
  | (Return r, w) => (r, committed w)
  | (Throw e, w) => (Json 500 e, committed w)
  end.

(** ** wallet.js *)

Definition INVALID_AMOUNT := Json 400 "Valid amount is required".
Definition INVALID_TRANSFER :=
  Json 400 "Valid recipient email and amount are required".
Definition WALLET_NOT_FOUND := Json 404 "Wallet not found".
Definition INSUFFICIENT_FUNDS := Json 400 "Insufficient funds".
Definition RECIPIENT_NOT_FOUND := Json 404 "Recipient not found".
Definition SELF_TRANSFER := Json 400 "Cannot transfer to your own account".
Definition RECIPIENT_WALLET_NOT_FOUND := Json 404 "Recipient wallet not found".

(** [!amount || amount <= 0] for an amount that is present: a Number is
    falsy when it is 0, -0 or NaN. *)
Definition bad_amount (amount : float) : bool :=
  ((amount =? 0)%float || PrimFloat.is_nan amount)
  || (amount <=? 0)%float.

(** [router.post('/deposit')] *)
Definition deposit_body (fl : Faults) (now : Z) (userId : ObjectId)
    (amount : option float) : Handler Response :=
  match amount with
  | None => respond INVALID_AMOUNT
  | Some amount =>
    if bad_amount amount then respond INVALID_AMOUNT else
    let* wallet := Wallet_findOne fl userId in
    match wallet with
    | None => let* _ := abortTransaction in respond WALLET_NOT_FOUND
    | Some wallet =>
      let wallet := Wallet.mk (Wallet.balance wallet + amount)%float
                              (Wallet.currency wallet) in
      let* _ := Wallet_save fl userId wallet in
      let* transaction := Transaction_create fl
        (Transaction.mk None (Some userId) amount DEPOSIT
           (Wallet.currency wallet) false None false now) in
      let* transaction0 := annotate fl now userId transaction in
      let* _ := commitTransaction fl in
      respond (Ok "Deposit successful" (Wallet.balance wallet) transaction0)
    end
  end.

Definition deposit fl now userId amount :=
  route (deposit_body fl now userId amount).

(** [router.post('/withdraw')] *)
Definition withdraw_body (fl : Faults) (now : Z) (userId : ObjectId)
    (amount : option float) : Handler Response :=
  match amount with
  | None => respond INVALID_AMOUNT
  | Some amount =>
    if bad_amount amount then respond INVALID_AMOUNT else
    let* wallet := Wallet_findOne fl userId in
    match wallet with
    | None => let* _ := abortTransaction in respond WALLET_NOT_FOUND
    | Some wallet =>
      if (Wallet.balance wallet <? amount)%float
      then let* _ := abortTransaction in respond INSUFFICIENT_FUNDS
      else
      let wallet := Wallet.mk (Wallet.balance wallet - amount)%float
                              (Wallet.currency wallet) in
      let* _ := Wallet_save fl userId wallet in
      let* transaction := Transaction_create fl
        (Transaction.mk (Some userId) None amount WITHDRAWAL
           (Wallet.currency wallet) false None false now) in
      let* transaction0 := annotate fl now userId transaction in
      let* _ := commitTransaction fl in
      respond (Ok "Withdrawal successful" (Wallet.balance wallet) transaction0)
    end
  end.

Definition withdraw fl now userId amount :=
  route (withdraw_body fl now userId amount).

(** [router.post('/transfer')] *)
Definition transfer_body (fl : Faults) (now : Z) (userId : ObjectId)
    (toEmail : option string) (amount : option float) : Handler Response :=
  match toEmail, amount with
  | Some toEmail, Some amount =>
    if String.eqb toEmail "" || bad_amount amount
    then respond INVALID_TRANSFER else
    let* recipient := User_findOne fl toEmail in
    match recipient with
    | None => let* _ := abortTransaction in respond RECIPIENT_NOT_FOUND
    | Some recipient =>
      if N.eqb (User._id recipient) userId
      then let* _ := abortTransaction in respond SELF_TRANSFER
      else
      let* senderWallet := Wallet_findOne fl userId in
      match senderWallet with
      | None => let* _ := abortTransaction in respond INSUFFICIENT_FUNDS
      | Some senderWallet =>
        if (Wallet.balance senderWallet <? amount)%float
        then let* _ := abortTransaction in respond INSUFFICIENT_FUNDS
        else
        let* recipientWallet := Wallet_findOne fl (User._id recipient) in
        match recipientWallet with
        | None => let* _ := abortTransaction in respond RECIPIENT_WALLET_NOT_FOUND
        | Some recipientWallet =>
          let senderWallet :=
            Wallet.mk (Wallet.balance senderWallet - amount)%float
                      (Wallet.currency senderWallet) in
          let recipientWallet :=
            Wallet.mk (Wallet.balance recipientWallet + amount)%float
                      (Wallet.currency recipientWallet) in
          let* _ := Wallet_save fl userId senderWallet in
          let* _ := Wallet_save fl (User._id recipient) recipientWallet in
          let* transaction := Transaction_create fl
            (Transaction.mk (Some userId) (Some (User._id recipient)) amount
               TRANSFER (Wallet.currency senderWallet) false None false now) in
          let* transaction0 := annotate fl now userId transaction in
          let* _ := commitTransaction fl in
          respond (Ok "Transfer successful" (Wallet.balance senderWallet)
                      transaction0)
        end
      end
    end
  | _, _ => respond INVALID_TRANSFER
  end.

Definition transfer fl now userId toEmail amount :=
  route (transfer_body fl now userId toEmail amount).

(** ** What a request leaves behind *)

Definition annotated (Transactions : list Transaction.t) (now : Z)
    (userId : ObjectId) (doc : Transaction.t) : Transaction.t :=
  match detectFraud Transactions now userId doc with
  | Some reason => flag doc reason
  | None => doc
  end.

Definition is_ok (r : Response) : bool :=
  match r with
  | Ok _ _ _ => true
  | Json _ _ => false
  end.

Definition resolve (toEmail : string) (db : Db) : option User.t :=
  List.find (fun u => String.eqb (User.email u) toEmail
                      && negb (User.isDeleted u)) (users db).

Definition deposit_doc (now : Z) (userId : ObjectId) (amount : float)
    (wallet : Wallet.t) : Transaction.t :=
  Transaction.mk None (Some userId) amount DEPOSIT (Wallet.currency wallet)
    false None false now.

Definition deposited (now : Z) (userId : ObjectId) (amount : float)
    (wallet : Wallet.t) (db : Db) : Db :=
  mkDb (users db)
    (<[userId := Wallet.mk (Wallet.balance wallet + amount)%float
                           (Wallet.currency wallet)]> (wallets db))
    (transactions db
     ++ [annotated (transactions db) now userId
           (deposit_doc now userId amount wallet)]).

Definition withdrawal_doc (now : Z) (userId : ObjectId) (amount : float)
    (wallet : Wallet.t) : Transaction.t :=
  Transaction.mk (Some userId) None amount WITHDRAWAL
    (Wallet.currency wallet) false None false now.

Definition withdrawn (now : Z) (userId : ObjectId) (amount : float)
    (wallet : Wallet.t) (db : Db) : Db :=
  mkDb (users db)
    (<[userId := Wallet.mk (Wallet.balance wallet - amount)%float
                           (Wallet.currency wallet)]> (wallets db))
    (transactions db
     ++ [annotated (transactions db) now userId
           (withdrawal_doc now userId amount wallet)]).

Definition transfer_doc (now : Z) (userId recipientId : ObjectId)
    (amount : float) (senderWallet : Wallet.t) : Transaction.t :=
  Transaction.mk (Some userId) (Some recipientId) amount TRANSFER
    (Wallet.currency senderWallet) false None false now.

Definition transferred (now : Z) (userId recipientId : ObjectId)
    (amount : float) (senderWallet recipientWallet : Wallet.t) (db : Db)
    : Db :=
  mkDb (users db)
    (<[recipientId :=
         Wallet.mk (Wallet.balance recipientWallet + amount)%float
                   (Wallet.currency recipientWallet)]>
       (<[userId := Wallet.mk (Wallet.balance senderWallet - amount)%float
                              (Wallet.currency senderWallet)]>
          (wallets db)))
    (transactions db
     ++ [annotated (transactions db) now userId
           (transfer_doc now userId recipientId amount senderWallet)]).

(** The mean of the exact values of the amounts, for a history whose
    amounts are all finite. *)
Fixpoint exact_total (l : list Transaction.t) : option Q :=
  match l with
  | [] => Some 0%Q
  | t :: l' =>
      match exact (Transaction.amount t), exact_total l' with
      | Some q, Some s => Some (q + s)%Q
      | _, _ => None
      end
  end.

Definition exact_mean (l : list Transaction.t) : option Q :=
  match exact_total l with
  | Some s => Some (s / inject_Z (Z.of_nat (length l)))%Q
  | None => None
  end.

(** ** Wallets and histories for the worked scenarios *)

(** alice holds 0.3 and bob 0.7, both in USD. *)
Definition cents_db : Db :=
  mkDb [User.mk alice "alice@example.com" false;
        User.mk bob "bob@example.com" false]
       (<[alice := Wallet.mk 0.3 "USD"]>
          (<[bob := Wallet.mk 0.7 "USD"]> ∅))
       [].

(** alice holds 2000 USD and bob 0 EUR. *)
Definition two_currency_db : Db :=
  mkDb [User.mk alice "alice@example.com" false;
        User.mk bob "bob@example.com" false]
       (<[alice := Wallet.mk 2000 "USD"]>
          (<[bob := Wallet.mk 0 "EUR"]> ∅))
       [].

Definition deposit_of (amount : float) (createdAt : Z) : Transaction.t :=
  Transaction.mk None (Some alice) amount DEPOSIT "USD" false None false
    createdAt.

(** Two deposits to alice, of 0.3 and of 2.1. *)
Definition two_deposits : list Transaction.t :=
  [deposit_of 0.3 1000; deposit_of 2.1 2000].

End Binary64.

(** * Lemmas *)

(** ** Comparisons *)

Lemma Qltb_true (a b : Q) : Qltb a b = true <-> (a < b)%Q.
Proof.
  unfold Qltb. rewrite negb_true_iff. split.
  - intros H. apply Qnot_le_lt. intros Hle.
    apply Qle_bool_iff in Hle. congruence.
  - intros H. destruct (Qle_bool b a) eqn:E; [|reflexivity].
    apply Qle_bool_iff in E. exfalso. exact (Qlt_not_le _ _ H E).
Qed.

Lemma Qltb_false (a b : Q) : Qltb a b = false <-> (b <= a)%Q.
Proof.
  unfold Qltb. rewrite negb_false_iff. apply Qle_bool_iff.
Qed.

Lemma bad_amount_true (a : Q) : bad_amount a = true <-> (a <= 0)%Q.
Proof.
  unfold bad_amount. rewrite orb_true_iff, Qeq_bool_iff, Qle_bool_iff.
  split; [intros [H|H]; [rewrite H; apply Qle_refl | exact H] | auto].
Qed.

Lemma bad_amount_false (a : Q) : bad_amount a = false <-> (0 < a)%Q.
Proof.
  split; intros H.
  - apply Qnot_le_lt. intros Hle. apply bad_amount_true in Hle. congruence.
  - destruct (bad_amount a) eqn:E; [|reflexivity].
    apply bad_amount_true in E. exfalso. exact (Qlt_not_le _ _ H E).
Qed.

(** ** Running a handler *)

Lemma save_created (l : list Transaction.t) (doc doc' : Transaction.t) :
  <[length l := doc']> (l ++ [doc]) = l ++ [doc'].
Proof.
  rewrite insert_app_r_alt by lia.
  replace (length l - length l)%nat with 0%nat by lia. reflexivity.
Qed.

Ltac step_handler :=
  repeat (cbv beta iota zeta delta
            [bind ret respond await abortTransaction commitTransaction
             no_faults Wallet_findOne Wallet_save User_findOne Transaction_create
             Transaction_save detectFraud_call annotate];
          cbn [committed session users wallets transactions fst snd
               Wallet.balance Wallet.currency];
          try match goal with
              | H : ?x = _ |- context [match ?x with _ => _ end] =>
                  rewrite H
              | |- context [match ?fl ?c with _ => _ end] =>
                  lazymatch type of fl with
                  | Faults => destruct (fl c) eqn:?
                  end
              end).

Ltac not_ok_absurd H := cbn [fst is_ok] in H; discriminate H.

(** A deposit either commits nothing and reports no success, or commits the
    credited wallet together with its one transaction document. *)
Lemma deposit_cases fl now userId amount db :
  (is_ok (fst (deposit fl now userId amount db)) = false
   /\ snd (deposit fl now userId amount db) = db)
  \/ exists a wallet,
       amount = Some a /\ (0 < a)%Q /\ wallets db !! userId = Some wallet
       /\ deposit fl now userId amount db
          = (Ok "Deposit successful" (Wallet.balance wallet + a)%Q
               (annotated (transactions db) now userId
                  (deposit_doc now userId a wallet)),
             deposited now userId a wallet db).
Proof.
  unfold deposit, route, deposit_body.
  destruct amount as [a|]; [|left; split; reflexivity].
  destruct (bad_amount a) eqn:Ha; [left; split; reflexivity|].
  apply bad_amount_false in Ha.
  destruct (wallets db !! userId) as [wallet|] eqn:Hw;
    [|step_handler; left; split; reflexivity].
  unfold annotated, deposited.
  destruct (detectFraud (transactions db) now userId
              (deposit_doc now userId a wallet)) eqn:Hd;
    unfold deposit_doc in *; step_handler;
    try (left; split; reflexivity).
  all: right; exists a, wallet;
    unfold annotated, deposit_doc; rewrite ?Hd, ?save_created; auto.
Qed.

(** A withdrawal either commits nothing and reports no success, or commits
    the debited wallet together with its one transaction document. *)
Lemma withdraw_cases fl now userId amount db :
  (is_ok (fst (withdraw fl now userId amount db)) = false
   /\ snd (withdraw fl now userId amount db) = db)
  \/ exists a wallet,
       amount = Some a /\ (0 < a)%Q /\ wallets db !! userId = Some wallet
       /\ (a <= Wallet.balance wallet)%Q
       /\ withdraw fl now userId amount db
          = (Ok "Withdrawal successful" (Wallet.balance wallet - a)%Q
               (annotated (transactions db) now userId
                  (withdrawal_doc now userId a wallet)),
             withdrawn now userId a wallet db).
Proof.
  unfold withdraw, route, withdraw_body.
  destruct amount as [a|]; [|left; split; reflexivity].
  destruct (bad_amount a) eqn:Ha; [left; split; reflexivity|].
  apply bad_amount_false in Ha.
  destruct (wallets db !! userId) as [wallet|] eqn:Hw;
    [|step_handler; left; split; reflexivity].
  destruct (Qltb (Wallet.balance wallet) a) eqn:Hb;
    [step_handler; left; split; reflexivity|].
  pose proof (proj1 (Qltb_false _ _) Hb) as Hle.
  unfold annotated, withdrawn.
  destruct (detectFraud (transactions db) now userId
              (withdrawal_doc now userId a wallet)) eqn:Hd;
    unfold withdrawal_doc in *; step_handler;
    try (left; split; reflexivity).
  all: right; exists a, wallet;
    unfold annotated, withdrawal_doc; rewrite ?Hd, ?save_created; auto.
Qed.

(** A transfer either commits nothing and reports no success, or commits
    both wallets together with its one transaction document. *)
Lemma transfer_cases fl now userId toEmail amount db :
  (is_ok (fst (transfer fl now userId toEmail amount db)) = false
   /\ snd (transfer fl now userId toEmail amount db) = db)
  \/ exists e a recipient senderWallet recipientWallet,
       toEmail = Some e /\ amount = Some a /\ (0 < a)%Q
       /\ resolve e db = Some recipient
       /\ User._id recipient <> userId
       /\ wallets db !! userId = Some senderWallet
       /\ (a <= Wallet.balance senderWallet)%Q
       /\ wallets db !! User._id recipient = Some recipientWallet
       /\ transfer fl now userId toEmail amount db
          = (Ok "Transfer successful" (Wallet.balance senderWallet - a)%Q
               (annotated (transactions db) now userId
                  (transfer_doc now userId (User._id recipient) a
                     senderWallet)),
             transferred now userId (User._id recipient) a senderWallet
               recipientWallet db).
Proof.
  unfold transfer, route, transfer_body.
  destruct toEmail as [e|]; [|left; split; reflexivity].
  destruct amount as [a|]; [|left; split; reflexivity].
  destruct (String.eqb e ""); [left; split; reflexivity|].
  destruct (bad_amount a) eqn:Ha; [left; split; reflexivity|].
  apply bad_amount_false in Ha. cbn [orb].
  destruct (resolve e db) as [recipient|] eqn:Hr; unfold resolve in Hr;
    [|step_handler; left; split; reflexivity].
  destruct (N.eqb (User._id recipient) userId) eqn:Hself;
    [step_handler; left; split; reflexivity|].
  pose proof (proj1 (N.eqb_neq _ _) Hself) as Hne.
  destruct (wallets db !! userId) as [senderWallet|] eqn:Hs;
    [|step_handler; left; split; reflexivity].
  destruct (Qltb (Wallet.balance senderWallet) a) eqn:Hb;
    [step_handler; left; split; reflexivity|].
  pose proof (proj1 (Qltb_false _ _) Hb) as Hle.
  destruct (wallets db !! User._id recipient) as [recipientWallet|] eqn:Hrw;
    [|step_handler; left; split; reflexivity].
  unfold annotated, transferred.
  destruct (detectFraud (transactions db) now userId
              (transfer_doc now userId (User._id recipient) a senderWallet))
    eqn:Hd;
    unfold transfer_doc in *; step_handler;
    try (left; split; reflexivity).
  all: right; exists e, a, recipient, senderWallet, recipientWallet;
    unfold annotated, transfer_doc, resolve;
    rewrite ?Hd, ?save_created; repeat split; auto.
Qed.

(** ** The amount check comes first *)

Lemma deposit_invalid fl now userId amount db :
  invalid_amount amount ->
  deposit fl now userId amount db = (INVALID_AMOUNT, db).
Proof.
  intros H. unfold deposit, route, deposit_body.
  destruct amount as [a|]; [|reflexivity].
  apply bad_amount_true in H. rewrite H. reflexivity.
Qed.

Lemma withdraw_invalid fl now userId amount db :
  invalid_amount amount ->
  withdraw fl now userId amount db = (INVALID_AMOUNT, db).
Proof.
  intros H. unfold withdraw, route, withdraw_body.
  destruct amount as [a|]; [|reflexivity].
  apply bad_amount_true in H. rewrite H. reflexivity.
Qed.

Lemma transfer_invalid fl now userId toEmail amount db :
  invalid_amount amount ->
  transfer fl now userId toEmail amount db = (INVALID_TRANSFER, db).
Proof.
  intros H. unfold transfer, route, transfer_body.
  destruct toEmail as [e|], amount as [a|]; try reflexivity.
  apply bad_amount_true in H. rewrite H, orb_true_r. reflexivity.
Qed.

(** ** The handlers when no call rejects *)

Lemma deposit_commits now userId a wallet db :
  (0 < a)%Q -> wallets db !! userId = Some wallet ->
  deposit no_faults now userId (Some a) db
  = (Ok "Deposit successful" (Wallet.balance wallet + a)%Q
       (annotated (transactions db) now userId
          (deposit_doc now userId a wallet)),
     deposited now userId a wallet db).
Proof.
  intros Ha Hw. apply bad_amount_false in Ha.
  unfold deposit, route, deposit_body. rewrite Ha.
  unfold annotated, deposited.
  destruct (detectFraud (transactions db) now userId
              (deposit_doc now userId a wallet)) eqn:Hd;
    unfold deposit_doc in *; step_handler;
    unfold annotated, deposit_doc; rewrite ?Hd, ?save_created; reflexivity.
Qed.

Lemma withdraw_commits now userId a wallet db :
  (0 < a)%Q -> wallets db !! userId = Some wallet ->
  (a <= Wallet.balance wallet)%Q ->
  withdraw no_faults now userId (Some a) db
  = (Ok "Withdrawal successful" (Wallet.balance wallet - a)%Q
       (annotated (transactions db) now userId
          (withdrawal_doc now userId a wallet)),
     withdrawn now userId a wallet db).
Proof.
  intros Ha Hw Hb. apply bad_amount_false in Ha. apply Qltb_false in Hb.
  unfold withdraw, route, withdraw_body. rewrite Ha.
  unfold annotated, withdrawn.
  destruct (detectFraud (transactions db) now userId
              (withdrawal_doc now userId a wallet)) eqn:Hd;
    unfold withdrawal_doc in *; step_handler;
    unfold annotated, withdrawal_doc; rewrite ?Hd, ?save_created;
    reflexivity.
Qed.


Lemma transfer_commits now userId e a recipient senderWallet recipientWallet
    db :
  e <> "" -> (0 < a)%Q -> resolve e db = Some recipient ->
  User._id recipient <> userId ->
  wallets db !! userId = Some senderWallet ->
  (a <= Wallet.balance senderWallet)%Q ->
  wallets db !! User._id recipient = Some recipientWallet ->
  transfer no_faults now userId (Some e) (Some a) db
  = (Ok "Transfer successful" (Wallet.balance senderWallet - a)%Q
       (annotated (transactions db) now userId
          (transfer_doc now userId (User._id recipient) a senderWallet)),
     transferred now userId (User._id recipient) a senderWallet
       recipientWallet db).
Proof.
  intros He Ha Hr Hself Hs Hb Hrw.
  apply bad_amount_false in Ha. apply Qltb_false in Hb.
  apply String.eqb_neq in He. apply N.eqb_neq in Hself.
  unfold resolve in Hr.
  unfold transfer, route, transfer_body. rewrite He, Ha. cbn [orb].
  unfold annotated, transferred.
  destruct (detectFraud (transactions db) now userId
              (transfer_doc now userId (User._id recipient) a senderWallet))
    eqn:Hd;
    unfold transfer_doc in *; step_handler;
    unfold annotated, transfer_doc; rewrite ?Hd, ?save_created;
    reflexivity.
Qed.

(** ** The annotation leaves the financial fields alone *)

Lemma annotated_financial Transactions now userId doc :
  let doc' := annotated Transactions now userId doc in
  Transaction.fromUserId doc' = Transaction.fromUserId doc
  /\ Transaction.toUserId doc' = Transaction.toUserId doc
  /\ Transaction.amount doc' = Transaction.amount doc
  /\ Transaction.type doc' = Transaction.type doc
  /\ Transaction.currency doc' = Transaction.currency doc
  /\ Transaction.createdAt doc' = Transaction.createdAt doc.
Proof.
  unfold annotated. destruct (detectFraud _ _ _ _); cbn; auto 10.
Qed.

Lemma annotated_flagReason Transactions now userId doc :
  Transaction.flagReason doc = None ->
  Transaction.flagReason (annotated Transactions now userId doc)
  = detectFraud Transactions now userId doc.
Proof.
  intros H. unfold annotated. destruct (detectFraud _ _ _ _); cbn; auto.
Qed.

Lemma annotated_isFlagged Transactions now userId doc :
  Transaction.isFlagged doc = false ->
  Transaction.isFlagged (annotated Transactions now userId doc)
  = match detectFraud Transactions now userId doc with
    | Some _ => true
    | None => false
    end.
Proof.
  intros H. unfold annotated. destruct (detectFraud _ _ _ _); cbn; auto.
Qed.

(** * Claims *)

(** ** C2: a non-positive or missing amount *)

(** C2.  With an amount that is missing or [<= 0], [/deposit] and
    [/withdraw] answer 400 "Valid amount is required" and [/transfer]
    answers 400 "Valid recipient email and amount are required"; in all
    three the database (every wallet, the whole ledger) is left as it was.
    No database call is made before the check, so no fault can change
    this. *)
Theorem invalid_amount_rejected fl now userId toEmail amount db :
  invalid_amount amount ->
  deposit fl now userId amount db = (INVALID_AMOUNT, db)
  /\ withdraw fl now userId amount db = (INVALID_AMOUNT, db)
  /\ transfer fl now userId toEmail amount db = (INVALID_TRANSFER, db).
Proof.
  intros H. split; [|split].
  - apply deposit_invalid, H.
  - apply withdraw_invalid, H.
  - apply transfer_invalid, H.
Qed.

Lemma invalid_amount_rejected_witness :
  invalid_amount (Some (-5)%Q)
  /\ deposit no_faults 0 alice (Some (-5)%Q) example_db
     = (INVALID_AMOUNT, example_db)
  /\ withdraw no_faults 0 alice (Some (-5)%Q) example_db
     = (INVALID_AMOUNT, example_db)
  /\ transfer no_faults 0 alice (Some "bob@example.com") (Some (-5)%Q)
       example_db
     = (INVALID_TRANSFER, example_db).
Proof.
  assert (H : invalid_amount (Some (-5)%Q)) by (vm_compute; discriminate).
  split; [exact H|].
  exact (invalid_amount_rejected no_faults 0 alice (Some "bob@example.com")
           (Some (-5)%Q) example_db H).
Defined.

(** ** C3: withdrawing the full balance, and more than the balance *)



(** ** C7: the large-withdrawal rule *)

(** The second rule of [detectFraud]: a WITHDRAWAL document above 1000 is
    classified "Large withdrawal", whatever the history (the first rule
    only looks at TRANSFER documents). *)
Lemma large_withdrawal_rule Transactions now userId doc :
  Transaction.type doc = WITHDRAWAL ->
  (1000 < Transaction.amount doc)%Q ->
  detectFraud Transactions now userId doc = Some LARGE.
Proof.
  intros Hty Hamt. apply Qltb_true in Hamt.
  unfold detectFraud. rewrite Hty, Hamt. reflexivity.
Qed.

(** C7.  Any WITHDRAWAL document with an amount above 1000 is classified
    "Large withdrawal"; and from a wallet holding 2000, when no database
    call rejects, a withdrawal of 1500 succeeds, the reported and stored
    balance are 500, and the returned transaction is a WITHDRAWAL of 1500
    with [isFlagged = true] and [flagReason = "Large withdrawal"]. *)
Theorem large_withdrawal_flagged now userId wallet db :
  wallets db !! userId = Some wallet ->
  (Wallet.balance wallet == 2000)%Q ->
  (forall Transactions now' uid doc,
      Transaction.type doc = WITHDRAWAL ->
      (1000 < Transaction.amount doc)%Q ->
      detectFraud Transactions now' uid doc = Some "Large withdrawal")
  /\ exists b tx db' wallet',
      withdraw no_faults now userId (Some 1500%Q) db
      = (Ok "Withdrawal successful" b tx, db')
      /\ (b == 500)%Q
      /\ wallets db' !! userId = Some wallet'
      /\ (Wallet.balance wallet' == 500)%Q
      /\ Transaction.type tx = WITHDRAWAL
      /\ Transaction.amount tx = 1500%Q
      /\ Transaction.isFlagged tx = true
      /\ Transaction.flagReason tx = Some "Large withdrawal".
Proof.
  intros Hw Hb. split; [exact large_withdrawal_rule|].
  eexists _, _, _, _. split.
  - apply (withdraw_commits now userId 1500%Q wallet db); auto.
    + reflexivity.
    + lra.
  - unfold withdrawn; cbn [wallets]. rewrite lookup_insert_eq.
    unfold annotated.
    rewrite (large_withdrawal_rule (transactions db) now userId
               (withdrawal_doc now userId 1500%Q wallet))
      by reflexivity.
    cbn [flag Wallet.balance Transaction.type Transaction.amount
         Transaction.isFlagged Transaction.flagReason withdrawal_doc].
    repeat split; try reflexivity; cbn [Wallet.balance]; lra.
Qed.

Lemma large_withdrawal_flagged_witness :
  wallets example_db !! alice = Some (Wallet.mk 2000%Q "USD")
  /\ (2000 == 2000)%Q
  /\ (forall Transactions now' uid doc,
        Transaction.type doc = WITHDRAWAL ->
        (1000 < Transaction.amount doc)%Q ->
        detectFraud Transactions now' uid doc = Some "Large withdrawal")
  /\ exists b tx db' wallet',
      withdraw no_faults 0 alice (Some 1500%Q) example_db
      = (Ok "Withdrawal successful" b tx, db')
      /\ (b == 500)%Q
      /\ wallets db' !! alice = Some wallet'
      /\ (Wallet.balance wallet' == 500)%Q
      /\ Transaction.type tx = WITHDRAWAL
      /\ Transaction.amount tx = 1500%Q
      /\ Transaction.isFlagged tx = true
      /\ Transaction.flagReason tx = Some "Large withdrawal".
Proof.
  split; [reflexivity|]. split; [reflexivity|].
  exact (large_withdrawal_flagged 0 alice (Wallet.mk 2000%Q "USD")
           example_db eq_refl eq_refl).
Defined.

(** ** C9: balances stay non-negative *)

(** C9.  Each of [/deposit], [/withdraw] and [/transfer], run on a database
    whose balances are all [>= 0] and with any pattern of rejecting calls,
    leaves a database whose balances are all [>= 0]: a debit is only written
    after the check [balance < amount] has been passed, and nothing is
    committed on any other path. *)
Theorem balances_stay_nonneg fl now userId toEmail amount db :
  balances_nonneg db ->
  balances_nonneg (snd (deposit fl now userId amount db))
  /\ balances_nonneg (snd (withdraw fl now userId amount db))
  /\ balances_nonneg (snd (transfer fl now userId toEmail amount db)).
Proof.
  intros Hinv. unfold balances_nonneg in *. repeat split.
  - destruct (deposit_cases fl now userId amount db)
      as [[_ ->] | (a & w & _ & Ha & Hw & ->)]; [exact Hinv|].
    cbn [snd deposited wallets]. apply map_Forall_insert_2; [|exact Hinv].
    cbn [Wallet.balance]. pose proof (Hinv _ _ Hw) as H0. cbn beta in H0.
    lra.
  - destruct (withdraw_cases fl now userId amount db)
      as [[_ ->] | (a & w & _ & Ha & Hw & Hle & ->)]; [exact Hinv|].
    cbn [snd withdrawn wallets]. apply map_Forall_insert_2; [|exact Hinv].
    cbn [Wallet.balance]. lra.
  - destruct (transfer_cases fl now userId toEmail amount db)
      as [[_ ->] | (e & a & r & sw & rw & _ & _ & Ha & _ & _ & Hs & Hle
                    & Hrw & ->)]; [exact Hinv|].
    cbn [snd transferred wallets].
    apply map_Forall_insert_2; [|apply map_Forall_insert_2; [|exact Hinv]];
      cbn [Wallet.balance].
    + pose proof (Hinv _ _ Hrw) as H0. cbn beta in H0. lra.
    + lra.
Qed.

Lemma balances_stay_nonneg_witness :
  balances_nonneg example_db
  /\ balances_nonneg (snd (deposit no_faults 0 alice (Some 25%Q) example_db))
  /\ balances_nonneg
       (snd (withdraw no_faults 0 alice (Some 25%Q) example_db))
  /\ balances_nonneg
       (snd (transfer no_faults 0 alice (Some "bob@example.com")
               (Some 25%Q) example_db)).
Proof.
  assert (H : balances_nonneg example_db)
    by (apply (bool_decide_unpack _); vm_compute; exact I).
  split; [exact H|].
  exact (balances_stay_nonneg no_faults 0 alice (Some "bob@example.com")
           (Some 25%Q) example_db H).
Defined.

(** ** The two finds of the detector *)

Lemma recentTransactions_spec Transactions now userId t :
  In t (recentTransactions Transactions now userId)
  <-> In t Transactions
      /\ (Transaction.fromUserId t = Some userId
          \/ Transaction.toUserId t = Some userId)
      /\ (now - 2592000000 <= Transaction.createdAt t)%Z.
Proof.
  unfold recentTransactions. rewrite filter_In, andb_true_iff, orb_true_iff.
  rewrite Z.leb_le.
  assert (Hopt : forall o, opt_eqb o userId = true <-> o = Some userId).
  { intros [i|]; cbn; [rewrite N.eqb_eq|]; split; congruence. }
  rewrite !Hopt. tauto.
Qed.

Lemma recentTransfers_spec Transactions now userId t :
  In t (recentTransfers Transactions now userId)
  <-> In t Transactions
      /\ Transaction.fromUserId t = Some userId
      /\ Transaction.type t = TRANSFER
      /\ (now - 3600000 <= Transaction.createdAt t)%Z.
Proof.
  unfold recentTransfers. rewrite filter_In, !andb_true_iff, Z.leb_le.
  assert (Hopt : forall o, opt_eqb o userId = true <-> o = Some userId).
  { intros [i|]; cbn; [rewrite N.eqb_eq|]; split; congruence. }
  assert (Hty : forall ty, TxType_eqb ty TRANSFER = true <-> ty = TRANSFER).
  { intros []; cbn; split; congruence. }
  rewrite Hopt, Hty. tauto.
Qed.

(** ** C6: the order of the checks of a transfer *)

Lemma resolve_none e db :
  resolve e db = None
  <-> forall u, In u (users db) -> User.email u = e ->
                User.isDeleted u = true.
Proof.
  unfold resolve. split.
  - intros H u Hin He.
    pose proof (find_none _ _ H u Hin) as Hu. cbn beta in Hu.
    rewrite (proj2 (String.eqb_eq _ _) He) in Hu.
    destruct (User.isDeleted u); [reflexivity | discriminate Hu].
  - intros H.
    destruct (find _ (users db)) as [u|] eqn:Hf; [|reflexivity].
    apply find_some in Hf as [Hin Hu].
    apply andb_true_iff in Hu as [He Hd]. apply String.eqb_eq in He.
    rewrite (H u Hin He) in Hd. discriminate Hd.
Qed.

Lemma transfer_recipient_not_found now X e a db :
  e <> "" -> (0 < a)%Q -> resolve e db = None ->
  transfer no_faults now X (Some e) (Some a) db = (RECIPIENT_NOT_FOUND, db).
Proof.
  intros He Ha Hr. apply String.eqb_neq in He. apply bad_amount_false in Ha.
  unfold resolve in Hr. unfold transfer, route, transfer_body.
  rewrite He, Ha. cbn [orb]. step_handler. reflexivity.
Qed.

Lemma transfer_to_self now X e a r db :
  e <> "" -> (0 < a)%Q -> resolve e db = Some r -> User._id r = X ->
  transfer no_faults now X (Some e) (Some a) db = (SELF_TRANSFER, db).
Proof.
  intros He Ha Hr Hself.
  apply String.eqb_neq in He. apply bad_amount_false in Ha.
  apply N.eqb_eq in Hself.
  unfold resolve in Hr. unfold transfer, route, transfer_body.
  rewrite He, Ha. cbn [orb]. step_handler. reflexivity.
Qed.

Lemma transfer_no_sender_wallet now X e a r db :
  e <> "" -> (0 < a)%Q -> resolve e db = Some r -> User._id r <> X ->
  wallets db !! X = None ->
  transfer no_faults now X (Some e) (Some a) db = (INSUFFICIENT_FUNDS, db).
Proof.
  intros He Ha Hr Hself Hw.
  apply String.eqb_neq in He. apply bad_amount_false in Ha.
  apply N.eqb_neq in Hself.
  unfold resolve in Hr. unfold transfer, route, transfer_body.
  rewrite He, Ha. cbn [orb]. step_handler. reflexivity.
Qed.

Lemma transfer_insufficient now X e a r w db :
  e <> "" -> (0 < a)%Q -> resolve e db = Some r -> User._id r <> X ->
  wallets db !! X = Some w -> (Wallet.balance w < a)%Q ->
  transfer no_faults now X (Some e) (Some a) db = (INSUFFICIENT_FUNDS, db).
Proof.
  intros He Ha Hr Hself Hw Hb.
  apply String.eqb_neq in He. apply bad_amount_false in Ha.
  apply N.eqb_neq in Hself. apply Qltb_true in Hb.
  unfold resolve in Hr. unfold transfer, route, transfer_body.
  rewrite He, Ha. cbn [orb]. step_handler. reflexivity.
Qed.

Lemma transfer_no_email fl now X toEmail amount db :
  toEmail = None \/ toEmail = Some "" ->
  transfer fl now X toEmail amount db = (INVALID_TRANSFER, db).
Proof.
  intros [-> | ->]; unfold transfer, route, transfer_body;
    destruct amount; reflexivity.
Qed.

(** C6, as the code has it.  When no database call rejects, [/transfer]
    checks in this order, each check deciding the answer whatever the later
    ones would say:
    - a missing or non-positive amount, and likewise (under any oracle, and
      whatever the amount) a missing or empty recipient email: 400 "Valid
      recipient email and amount are required";
    - then an email that resolves to no account with [isDeleted = false]:
      404 "Recipient not found";
    - then a recipient that is the sender: 400 "Cannot transfer to your own
      account";
    - then the funds: 400 "Insufficient funds", both when the sender's
      balance is below the amount and when the sender has no wallet at all
      (the two are one test, [!senderWallet || balance < amount]).
    Whatever calls reject, an answer that is not a success leaves the
    database as it was. *)
Theorem transfer_validation_order now X toEmail amount db :
  (invalid_amount amount ->
   transfer no_faults now X toEmail amount db = (INVALID_TRANSFER, db))
  /\ (forall e a,
        toEmail = Some e -> e <> "" -> amount = Some a -> (0 < a)%Q ->
        ((forall u, In u (users db) -> User.email u = e ->
                    User.isDeleted u = true) ->
         transfer no_faults now X toEmail amount db
         = (RECIPIENT_NOT_FOUND, db))
        /\ (forall r,
              resolve e db = Some r ->
              (User._id r = X ->
               transfer no_faults now X toEmail amount db
               = (SELF_TRANSFER, db))
              /\ (User._id r <> X ->
                  (wallets db !! X = None ->
                   transfer no_faults now X toEmail amount db
                   = (INSUFFICIENT_FUNDS, db))
                  /\ (forall w,
                        wallets db !! X = Some w ->
                        (Wallet.balance w < a)%Q ->
                        transfer no_faults now X toEmail amount db
                        = (INSUFFICIENT_FUNDS, db)))))
  /\ (forall fl,
        is_ok (fst (transfer fl now X toEmail amount db)) = false ->
        snd (transfer fl now X toEmail amount db) = db)
  /\ (toEmail = None \/ toEmail = Some "" ->
      forall fl,
        transfer fl now X toEmail amount db = (INVALID_TRANSFER, db)).
Proof.
  split; [|split; [|split]];
    [| | |intros H fl; apply transfer_no_email; exact H].
  - intros H. apply transfer_invalid, H.
  - intros e a -> He -> Ha. split.
    + intros Hnone. apply transfer_recipient_not_found; auto.
      apply resolve_none. exact Hnone.
    + intros r Hr. split; [|intros Hne; split].
      * intros Hself. apply (transfer_to_self now X e a r db); auto.
      * intros Hw. apply (transfer_no_sender_wallet now X e a r db); auto.
      * intros w Hw Hb. apply (transfer_insufficient now X e a r w db); auto.
  - intros fl Hno.
    destruct (transfer_cases fl now X toEmail amount db)
      as [[_ Hdb] | (e & a & r & sw & rw & _ & _ & _ & _ & _ & _ & _ & _
                     & Heq)]; [exact Hdb|].
    rewrite Heq in Hno. discriminate Hno.
Qed.

(** The precedence on the scenario database: each check is met with every
    later check failing as well. *)
Example transfer_checks_examples :
  transfer no_faults 0 carol (Some "nobody@example.com") (Some 0%Q)
    example_db = (INVALID_TRANSFER, example_db)
  /\ transfer no_faults 0 carol (Some "nobody@example.com") (Some 5%Q)
       example_db = (RECIPIENT_NOT_FOUND, example_db)
  /\ transfer no_faults 0 carol (Some "carol@example.com") (Some 5%Q)
       example_db = (SELF_TRANSFER, example_db)
  /\ transfer no_faults 0 alice (Some "bob@example.com") (Some 5000%Q)
       example_db = (INSUFFICIENT_FUNDS, example_db)
  /\ transfer no_faults 0 alice (Some "carol@example.com") (Some 5%Q)
       example_db = (RECIPIENT_WALLET_NOT_FOUND, example_db).
Proof. repeat split; vm_compute; reflexivity. Qed.

(** The claim as the spec words it fails on a sender without a wallet:
    carol has no wallet, and her transfer to bob is answered 400
    "Insufficient funds", which is not the 404 "Wallet not found" that
    [/deposit] and [/withdraw] give her. *)
Lemma transfer_without_wallet_counterexample :
  wallets example_db !! carol = None
  /\ transfer no_faults 0 carol (Some "bob@example.com") (Some 5%Q)
       example_db = (INSUFFICIENT_FUNDS, example_db)
  /\ withdraw no_faults 0 carol (Some 5%Q) example_db
     = (WALLET_NOT_FOUND, example_db)
  /\ INSUFFICIENT_FUNDS <> WALLET_NOT_FOUND.
Proof.
  split; [reflexivity|]. split; [vm_compute; reflexivity|].
  split; [vm_compute; reflexivity|]. discriminate.
Qed.

(** ** C4: where the annotation sits relative to the commit *)

Lemma deposit_ok_faults fl now userId a wallet db :
  wallets db !! userId = Some wallet ->
  is_ok (fst (deposit fl now userId (Some a) db)) = true ->
  annotation_passed fl
    (detectFraud (transactions db) now userId
       (deposit_doc now userId a wallet)).
Proof.
  intros Hw. unfold deposit, route, deposit_body, annotation_passed.
  destruct (bad_amount a); [intros H; not_ok_absurd H|].
  destruct (detectFraud (transactions db) now userId
              (deposit_doc now userId a wallet)) eqn:Hd;
    unfold deposit_doc in *; step_handler; intros Hok;
    try not_ok_absurd Hok; auto.
Qed.

Lemma withdraw_ok_faults fl now userId a wallet db :
  wallets db !! userId = Some wallet ->
  is_ok (fst (withdraw fl now userId (Some a) db)) = true ->
  annotation_passed fl
    (detectFraud (transactions db) now userId
       (withdrawal_doc now userId a wallet)).
Proof.
  intros Hw. unfold withdraw, route, withdraw_body, annotation_passed.
  destruct (bad_amount a); [intros H; not_ok_absurd H|].
  destruct (Qltb (Wallet.balance wallet) a) eqn:Hb;
    [step_handler; intros H; not_ok_absurd H|].
  destruct (detectFraud (transactions db) now userId
              (withdrawal_doc now userId a wallet)) eqn:Hd;
    unfold withdrawal_doc in *; step_handler; intros Hok;
    try not_ok_absurd Hok; auto.
Qed.

Lemma transfer_ok_faults fl now userId e a recipient senderWallet db :
  resolve e db = Some recipient ->
  wallets db !! userId = Some senderWallet ->
  is_ok (fst (transfer fl now userId (Some e) (Some a) db)) = true ->
  annotation_passed fl
    (detectFraud (transactions db) now userId
       (transfer_doc now userId (User._id recipient) a senderWallet)).
Proof.
  intros Hr Hs. unfold resolve in Hr.
  unfold transfer, route, transfer_body, annotation_passed.
  destruct (String.eqb e "" || bad_amount a); [intros H; not_ok_absurd H|].
  destruct (N.eqb (User._id recipient) userId) eqn:Hself;
    [step_handler; intros H; not_ok_absurd H|].
  destruct (Qltb (Wallet.balance senderWallet) a) eqn:Hb;
    [step_handler; intros H; not_ok_absurd H|].
  destruct (wallets db !! User._id recipient) as [recipientWallet|] eqn:Hrw;
    [|step_handler; intros H; not_ok_absurd H].
  destruct (detectFraud (transactions db) now userId
              (transfer_doc now userId (User._id recipient) a senderWallet))
    eqn:Hd;
    unfold transfer_doc in *; step_handler; intros Hok;
    try not_ok_absurd Hok; auto.
Qed.

(** Every request either commits nothing and reports no success, or does
    exactly what it does when no call rejects: it answers with the document
    [doc] it created, annotated over the ledger as committed before the
    request, and that annotated document is the one appended.  In the
    second case the classification, the flag write (if the detector gave a
    reason) and the commit all went through. *)
Lemma handle_cases fl now userId req db :
  (is_ok (fst (handle fl now userId req db)) = false
   /\ snd (handle fl now userId req db) = db)
  \/ exists doc m b,
       Transaction.isFlagged doc = false
       /\ handle fl now userId req db = handle no_faults now userId req db
       /\ fst (handle no_faults now userId req db)
          = Ok m b (annotated (transactions db) now userId doc)
       /\ transactions (snd (handle no_faults now userId req db))
          = transactions db ++ [annotated (transactions db) now userId doc]
       /\ annotation_passed fl (detectFraud (transactions db) now userId doc).
Proof.
  destruct req as [amount | amount | toEmail amount]; cbn [handle].
  - destruct (deposit_cases fl now userId amount db)
      as [H | (a & w & -> & Ha & Hw & Heq)]; [left; exact H|].
    right. exists (deposit_doc now userId a w). eexists _, _.
    pose proof (deposit_ok_faults fl now userId a w db Hw) as Hpass.
    rewrite Heq in *. rewrite (deposit_commits now userId a w db Ha Hw).
    split; [reflexivity|]. split; [reflexivity|]. split; [reflexivity|].
    split; [reflexivity|]. exact (Hpass eq_refl).
  - destruct (withdraw_cases fl now userId amount db)
      as [H | (a & w & -> & Ha & Hw & Hle & Heq)]; [left; exact H|].
    right. exists (withdrawal_doc now userId a w). eexists _, _.
    pose proof (withdraw_ok_faults fl now userId a w db Hw) as Hpass.
    rewrite Heq in *.
    rewrite (withdraw_commits now userId a w db Ha Hw Hle).
    split; [reflexivity|]. split; [reflexivity|]. split; [reflexivity|].
    split; [reflexivity|]. exact (Hpass eq_refl).
  - destruct (transfer_cases fl now userId toEmail amount db)
      as [H | (e & a & r & sw & rw & -> & -> & Ha & Hr & Hne & Hs & Hle
               & Hrw & Heq)]; [left; exact H|].
    right. exists (transfer_doc now userId (User._id r) a sw).
    eexists _, _.
    pose proof (transfer_ok_faults fl now userId e a r sw db Hr Hs) as Hpass.
    rewrite Heq in *.
    assert (He : e <> "").
    { intros ->. clear Hpass. 
      unfold transfer, route, transfer_body in Heq. cbn in Heq.
      discriminate Heq. }
    rewrite (transfer_commits now userId e a r sw rw db He Ha Hr Hne Hs Hle
               Hrw).
    split; [reflexivity|]. split; [reflexivity|]. split; [reflexivity|].
    split; [reflexivity|]. exact (Hpass eq_refl).
Qed.

(** A fault cannot turn the staged work into a committed half: with [r0]
    the run in which no call rejects, a run under [fl] that is not a
    success commits nothing, a run that is a success is [r0], and a
    rejected classification or flag write makes the run a failure. *)
Lemma annotation_faults_abort fl now userId req db :
  let r := handle fl now userId req db in
  let r0 := handle no_faults now userId req db in
  (is_ok (fst r) = false -> snd r = db)
  /\ (is_ok (fst r) = true -> r = r0)
  /\ (forall m b tx,
        fst r0 = Ok m b tx ->
        last (transactions (snd r0)) = Some tx
        /\ exists doc,
             Transaction.isFlagged doc = false
             /\ tx = annotated (transactions db) now userId doc)
  /\ (forall e,
        fl DetectFraud = Some e -> is_ok (fst r0) = true ->
        is_ok (fst r) = false /\ snd r = db)
  /\ (forall e m b tx,
        fl TransactionSave = Some e ->
        fst r0 = Ok m b tx -> Transaction.isFlagged tx = true ->
        is_ok (fst r) = false /\ snd r = db).
Proof.
  intros r r0. subst r r0.
  assert (H0 : forall m b tx,
             fst (handle no_faults now userId req db) = Ok m b tx ->
             last (transactions (snd (handle no_faults now userId req db)))
             = Some tx
             /\ exists doc,
                  Transaction.isFlagged doc = false
                  /\ tx = annotated (transactions db) now userId doc).
  { intros m b tx Hfst.
    destruct (handle_cases no_faults now userId req db)
      as [[Hno _] | (doc & m' & b' & Hdoc & _ & Hok & Htx & _)].
    - rewrite Hfst in Hno. discriminate Hno.
    - rewrite Hfst in Hok. injection Hok as <- <- ->.
      rewrite Htx, last_snoc. eauto. }
  destruct (handle_cases fl now userId req db)
    as [[Hno Hdb] | (doc & m & b & Hdoc & Hsame & Hok & Htx & Hd & Hs & Hc)].
  - split; [|split; [|split; [|split]]]; auto.
    intros Hyes. rewrite Hno in Hyes. discriminate Hyes.
  - split; [|split; [|split; [|split]]].
    + rewrite Hsame, Hok. discriminate.
    + intros _. exact Hsame.
    + exact H0.
    + intros e He. rewrite He in Hd. discriminate Hd.
    + intros e m' b' tx He Hfst Hflag.
      rewrite Hfst in Hok. injection Hok as <- <- ->.
      rewrite (annotated_isFlagged _ _ _ _ Hdoc) in Hflag.
      destruct Hs as [Hs | Hs]; [rewrite Hs in Hflag | rewrite He in Hs];
        discriminate.
Qed.

Ltac answered_500 :=
  intros Hno;
  first [ cbn [fst is_ok] in Hno; discriminate Hno
        | do 2 eexists; split; [|reflexivity]; eassumption ].

Lemma deposit_rejection fl now userId a wallet db :
  (0 < a)%Q -> wallets db !! userId = Some wallet ->
  is_ok (fst (deposit fl now userId (Some a) db)) = false ->
  exists c e, fl c = Some e
              /\ deposit fl now userId (Some a) db = (Json 500 e, db).
Proof.
  intros Ha Hw. apply bad_amount_false in Ha.
  unfold deposit, route, deposit_body. rewrite Ha.
  destruct (detectFraud (transactions db) now userId
              (deposit_doc now userId a wallet)) eqn:Hd;
    unfold deposit_doc in *; step_handler; answered_500.
Qed.

Lemma withdraw_rejection fl now userId a wallet db :
  (0 < a)%Q -> wallets db !! userId = Some wallet ->
  (a <= Wallet.balance wallet)%Q ->
  is_ok (fst (withdraw fl now userId (Some a) db)) = false ->
  exists c e, fl c = Some e
              /\ withdraw fl now userId (Some a) db = (Json 500 e, db).
Proof.
  intros Ha Hw Hb. apply bad_amount_false in Ha. apply Qltb_false in Hb.
  unfold withdraw, route, withdraw_body. rewrite Ha.
  destruct (detectFraud (transactions db) now userId
              (withdrawal_doc now userId a wallet)) eqn:Hd;
    unfold withdrawal_doc in *; step_handler; answered_500.
Qed.

Lemma transfer_rejection fl now userId e a recipient senderWallet
    recipientWallet db :
  e <> "" -> (0 < a)%Q -> resolve e db = Some recipient ->
  User._id recipient <> userId ->
  wallets db !! userId = Some senderWallet ->
  (a <= Wallet.balance senderWallet)%Q ->
  wallets db !! User._id recipient = Some recipientWallet ->
  is_ok (fst (transfer fl now userId (Some e) (Some a) db)) = false ->
  exists c msg, fl c = Some msg
                /\ transfer fl now userId (Some e) (Some a) db
                   = (Json 500 msg, db).
Proof.
  intros He Ha Hr Hself Hs Hb Hrw.
  apply bad_amount_false in Ha. apply Qltb_false in Hb.
  apply String.eqb_neq in He. apply N.eqb_neq in Hself.
  unfold resolve in Hr.
  unfold transfer, route, transfer_body. rewrite He, Ha. cbn [orb].
  destruct (detectFraud (transactions db) now userId
              (transfer_doc now userId (User._id recipient) a senderWallet))
    eqn:Hd;
    unfold transfer_doc in *; step_handler; answered_500.
Qed.

(** Where the run without faults succeeds, a run that does not is one in
    which some call rejected; it is answered 500 with that call's message
    and commits nothing. *)
Lemma handle_rejection fl now userId req db :
  is_ok (fst (handle no_faults now userId req db)) = true ->
  is_ok (fst (handle fl now userId req db)) = false ->
  exists c e, fl c = Some e
              /\ handle fl now userId req db = (Json 500 e, db).
Proof.
  intros H0 Hno.
  destruct req as [amount | amount | toEmail amount]; cbn [handle] in *.
  - destruct (deposit_cases no_faults now userId amount db)
      as [[H _] | (a & w & -> & Ha & Hw & _)]; [congruence|].
    apply (deposit_rejection fl now userId a w db); assumption.
  - destruct (withdraw_cases no_faults now userId amount db)
      as [[H _] | (a & w & -> & Ha & Hw & Hle & _)]; [congruence|].
    apply (withdraw_rejection fl now userId a w db); assumption.
  - destruct (transfer_cases no_faults now userId toEmail amount db)
      as [[H _] | (e & a & r & sw & rw & -> & -> & Ha & Hr & Hne & Hs & Hle
                   & Hrw & Heq)]; [congruence|].
    assert (He : e <> "").
    { intros ->. unfold transfer, route, transfer_body in Heq.
      cbn in Heq. discriminate Heq. }
    apply (transfer_rejection fl now userId e a r sw rw db); assumption.
Qed.

(** C4, as the code has it.  In all three routes the classification and
    the flag write are calls made inside the [try], after the balance and
    the transaction document are staged in the session and before the one
    [commitTransaction].  So, for a request [req] run under any oracle [fl],
    with [r0] the run in which no call rejects:
    - a run that does not answer with success commits nothing;
    - a run that answers with success is the run [r0];
    - the document [r0] returns is the one it appends to the ledger, and it
      is the created document annotated over the ledger as it was committed
      before the request: balances, record and flag are committed together;
    - if the classification rejects where [r0] succeeds, or the flag write
      rejects where [r0] returns a flagged document, the run commits
      nothing and is answered with status 500 and the message of the call
      that rejected;
    - when the flag write is the only call that rejects, that answer is 500
      with the flag write's own message. *)
Theorem annotation_within_commit fl now userId req db :
  let r := handle fl now userId req db in
  let r0 := handle no_faults now userId req db in
  (is_ok (fst r) = false -> snd r = db)
  /\ (is_ok (fst r) = true -> r = r0)
  /\ (forall m b tx,
        fst r0 = Ok m b tx ->
        last (transactions (snd r0)) = Some tx
        /\ exists doc,
             Transaction.isFlagged doc = false
             /\ tx = annotated (transactions db) now userId doc)
  /\ (forall e,
        fl DetectFraud = Some e -> is_ok (fst r0) = true ->
        is_ok (fst r) = false /\ snd r = db
        /\ exists c msg, fl c = Some msg /\ r = (Json 500 msg, db))
  /\ (forall e m b tx,
        fl TransactionSave = Some e ->
        fst r0 = Ok m b tx -> Transaction.isFlagged tx = true ->
        is_ok (fst r) = false /\ snd r = db
        /\ exists c msg, fl c = Some msg /\ r = (Json 500 msg, db))
  /\ (forall e m b tx,
        fl TransactionSave = Some e ->
        (forall c, c <> TransactionSave -> fl c = None) ->
        fst r0 = Ok m b tx -> Transaction.isFlagged tx = true ->
        r = (Json 500 e, db)).
Proof.
  intros r r0. subst r r0.
  destruct (annotation_faults_abort fl now userId req db)
    as (H1 & H2 & H3 & H4 & H5).
  assert (H5' : forall e m b tx,
             fl TransactionSave = Some e ->
             fst (handle no_faults now userId req db) = Ok m b tx ->
             Transaction.isFlagged tx = true ->
             is_ok (fst (handle fl now userId req db)) = false
             /\ snd (handle fl now userId req db) = db
             /\ exists c msg,
                  fl c = Some msg
                  /\ handle fl now userId req db = (Json 500 msg, db)).
  { intros e m b tx He Hfst Hflag.
    destruct (H5 e m b tx He Hfst Hflag) as [Hno Hdb].
    split; [exact Hno|]. split; [exact Hdb|].
    apply handle_rejection; [rewrite Hfst; reflexivity | exact Hno]. }
  split; [exact H1|]. split; [exact H2|]. split; [exact H3|].
  split; [|split; [exact H5'|]].
  - intros e He H0. destruct (H4 e He H0) as [Hno Hdb].
    split; [exact Hno|]. split; [exact Hdb|].
    apply handle_rejection; assumption.
  - intros e m b tx He Hquiet Hfst Hflag.
    destruct (H5' e m b tx He Hfst Hflag) as (_ & _ & c & msg & Hc & ->).
    destruct c; try (rewrite Hquiet in Hc by discriminate; discriminate Hc).
    rewrite He in Hc. injection Hc as ->. reflexivity.
Qed.

(** The claim as the spec words it fails when a flag write rejects: alice's
    withdrawal of 1500 from 2000 succeeds (and is flagged) when nothing
    rejects; when only the flag write rejects, the same request is answered
    500 and the database is as before: balance 2000, empty ledger.  The
    financial change is not committed, and the failure is reported. *)
Lemma flag_write_failure_counterexample :
  is_ok (fst (withdraw no_faults 0 alice (Some 1500%Q) example_db)) = true
  /\ withdraw flag_write_fails 0 alice (Some 1500%Q) example_db
     = (Json 500 "flag write failed", example_db)
  /\ wallets example_db !! alice = Some (Wallet.mk 2000%Q "USD")
  /\ transactions example_db = [].
Proof.
  split; [vm_compute; reflexivity|]. split; [vm_compute; reflexivity|].
  split; reflexivity.
Qed.

(** ** C5: the velocity rule *)

(** On a TRANSFER document the verdict is the velocity reason exactly when
    the visible collection holds at least five transfers of the actor in
    the last hour. *)
Lemma velocity_iff Transactions now userId doc :
  Transaction.type doc = TRANSFER ->
  detectFraud Transactions now userId doc = Some VELOCITY
  <-> (5 <= length (recentTransfers Transactions now userId))%nat.
Proof.
  intros Hty. unfold detectFraud. rewrite Hty. cbn [TxType_eqb andb].
  destruct (5 <=? length (recentTransfers Transactions now userId))%nat
    eqn:E.
  - apply Nat.leb_le in E. tauto.
  - apply Nat.leb_gt in E.
    destruct (_ && _); split; intros H; try discriminate H; lia.
Qed.

Lemma transfer_verdicts Transactions now userId doc :
  Transaction.type doc = TRANSFER ->
  detectFraud Transactions now userId doc = Some VELOCITY
  \/ detectFraud Transactions now userId doc = Some OUTLIER
  \/ detectFraud Transactions now userId doc = None.
Proof.
  intros Hty. unfold detectFraud. rewrite Hty. cbn [TxType_eqb andb].
  destruct (5 <=? _)%nat; [auto|]. destruct (_ && _); auto.
Qed.

Lemma recentTransfers_app L L' now userId :
  recentTransfers (L ++ L') now userId
  = recentTransfers L now userId ++ recentTransfers L' now userId.
Proof. apply List.filter_app. Qed.

(** A window that opens later sees no more than one that opens earlier. *)
Lemma recentTransfers_later_nil L t0 t userId :
  (t0 <= t)%Z ->
  recentTransfers L t0 userId = [] -> recentTransfers L t userId = [].
Proof.
  intros Ht. unfold recentTransfers.
  induction L as [|x L IH]; cbn [List.filter]; [reflexivity|].
  destruct (opt_eqb (Transaction.fromUserId x) userId
            && TxType_eqb (Transaction.type x) TRANSFER); cbn [andb];
    [|exact IH].
  destruct (t0 - 60 * 60 * 1000 <=? Transaction.createdAt x)%Z eqn:E0;
    [discriminate|].
  intros H. apply Z.leb_gt in E0.
  destruct (t - 60 * 60 * 1000 <=? Transaction.createdAt x)%Z eqn:E;
    [apply Z.leb_le in E; lia | exact (IH H)].
Qed.

(** The transfer just committed at [now] is seen by every window that opens
    at most one hour before [now]. *)
Lemma recentTransfers_new Transactions now t X Y a w :
  (t - 3600000 <= now)%Z ->
  recentTransfers
    [annotated Transactions now X (transfer_doc now X Y a w)] t X
  = [annotated Transactions now X (transfer_doc now X Y a w)].
Proof.
  intros Ht.
  pose proof (annotated_financial Transactions now X
                (transfer_doc now X Y a w)) as (Hf & _ & _ & Hty & _ & Hc).
  unfold recentTransfers. cbn [List.filter]. rewrite Hf, Hty, Hc.
  cbn [transfer_doc Transaction.fromUserId Transaction.type
       Transaction.createdAt opt_eqb TxType_eqb].
  rewrite N.eqb_refl. cbn [andb].
  replace (t - 60 * 60 * 1000 <=? now)%Z with true; [reflexivity|].
  symmetry. apply Z.leb_le. lia.
Qed.

Lemma transfer_all_velocity fl X t0 reqs :
  forall db j,
    (forall t, (t0 <= t <= t0 + 3600000)%Z ->
               length (recentTransfers (transactions db) t X) = j) ->
    Forall (within_hour t0) reqs ->
    Forall (fun r => is_ok r = true) (fst (transfer_all fl X reqs db)) ->
    forall k m b tx,
      fst (transfer_all fl X reqs db) !! k = Some (Ok m b tx) ->
      Transaction.type tx = TRANSFER
      /\ Transaction.fromUserId tx = Some X
      /\ (Transaction.flagReason tx = Some VELOCITY <-> (5 <= j + k)%nat)
      /\ (Transaction.flagReason tx = Some VELOCITY
          \/ Transaction.flagReason tx = Some OUTLIER
          \/ Transaction.flagReason tx = None).
Proof.
  induction reqs as [|[[now toEmail] amount] reqs IH];
    intros db j Hcount Hwin Hoks k m b tx Hk.
  { cbn in Hk. destruct k; discriminate Hk. }
  cbn [transfer_all] in Hoks, Hk.
  destruct (transfer fl now X toEmail amount db) as [r db1] eqn:Hrun.
  destruct (transfer_all fl X reqs db1) as [rs db2] eqn:Hrest.
  cbn [fst] in Hoks, Hk.
  apply Forall_cons in Hoks as [Hok Hoks].
  apply Forall_cons in Hwin as [Hnow Hwin].
  unfold within_hour in Hnow; cbn [fst] in Hnow.
  destruct (transfer_cases fl now X toEmail amount db)
    as [[Hno _] | (e & a & recipient & sw & rw & _ & _ & _ & _ & _ & _ & _
                   & _ & Heq)].
  { rewrite Hrun in Hno. cbn [fst] in Hno. congruence. }
  rewrite Hrun in Heq. injection Heq as -> ->.
  set (doc := transfer_doc now X (User._id recipient) a sw) in *.
  pose proof (annotated_financial (transactions db) now X doc)
    as (Hf & _ & _ & Hty & _ & _).
  destruct k as [|k].
  - cbn in Hk. injection Hk as <- <- <-.
    rewrite Hf, Hty.
    rewrite (annotated_flagReason (transactions db) now X doc eq_refl).
    split; [reflexivity|]. split; [reflexivity|]. split.
    + rewrite (velocity_iff (transactions db) now X doc eq_refl).
      rewrite (Hcount now Hnow), Nat.add_0_r. tauto.
    + apply transfer_verdicts. reflexivity.
  - cbn in Hk.
    assert (Hcount' : forall t, (t0 <= t <= t0 + 3600000)%Z ->
              length (recentTransfers
                        (transactions
                           (transferred now X (User._id recipient) a sw rw
                              db)) t X) = S j).
    { intros t Ht. unfold transferred; cbn [transactions]. fold doc.
      rewrite recentTransfers_app. unfold doc.
      rewrite recentTransfers_new by lia.
      rewrite length_app, (Hcount t Ht). cbn. lia. }
    specialize (IH _ (S j) Hcount' Hwin).
    rewrite Hrest in IH. cbn [fst] in IH.
    destruct (IH Hoks k m b tx Hk) as (H1 & H2 & H3 & H4).
    repeat split; auto; rewrite H3 || (intros; apply H3); lia.
Qed.

(** C5, as the code has it.  The velocity rule counts the TRANSFER
    documents with the actor as source and [createdAt >= now - 1h] in the
    committed collection, and matches when there are at least 5.  The two
    finds of [detectFraud] carry no session, and the route calls
    [detectFraud] before [commitTransaction]: the transfer being served is
    not among the documents counted.  So for requests served one after the
    other at times within one hour [t0 .. t0 + 1h], all answered with
    success, from a ledger with no transfer of the account in the hour
    before [t0]: the transaction at position [k] (from 0) is a TRANSFER of
    the account, it carries the velocity reason exactly when [k >= 5] (the
    sixth transfer and every later one), and the first five carry either the
    outlier reason or no flag. *)
Theorem velocity_flags_from_sixth fl X t0 reqs db k m b tx :
  recentTransfers (transactions db) t0 X = [] ->
  Forall (within_hour t0) reqs ->
  Forall (fun r => is_ok r = true) (fst (transfer_all fl X reqs db)) ->
  fst (transfer_all fl X reqs db) !! k = Some (Ok m b tx) ->
  (forall L now doc,
      Transaction.type doc = TRANSFER ->
      detectFraud L now X doc = Some "Multiple transfers in a short period"
      <-> (5 <= length (recentTransfers L now X))%nat)
  /\ (forall L now t,
        In t (recentTransfers L now X)
        <-> In t L /\ Transaction.fromUserId t = Some X
            /\ Transaction.type t = TRANSFER
            /\ (now - 3600000 <= Transaction.createdAt t)%Z)
  /\ Transaction.type tx = TRANSFER
  /\ Transaction.fromUserId tx = Some X
  /\ (Transaction.flagReason tx
      = Some "Multiple transfers in a short period" <-> (5 <= k)%nat)
  /\ ((k < 5)%nat ->
      Transaction.flagReason tx
      = Some "Transaction amount significantly higher than average"
      \/ Transaction.flagReason tx = None).
Proof.
  intros Hnil Hwin Hoks Hk.
  split; [intros L now doc; apply velocity_iff|].
  split; [intros L now t; apply recentTransfers_spec|].
  assert (Hcount : forall t, (t0 <= t <= t0 + 3600000)%Z ->
            length (recentTransfers (transactions db) t X) = 0%nat).
  { intros t [Ht _].
    rewrite (recentTransfers_later_nil _ t0 t X Ht Hnil). reflexivity. }
  destruct (transfer_all_velocity fl X t0 reqs db 0%nat Hcount Hwin Hoks
              k m b tx Hk) as (H1 & H2 & H3 & H4).
  repeat split; auto; try apply H3.
  intros Hlt. destruct H4 as [H4 | H4]; [|exact H4].
  apply H3 in H4. cbn in H4. lia.
Qed.

Lemma velocity_flags_from_sixth_witness :
  recentTransfers (transactions example_db) 0 alice = []
  /\ Forall (within_hour 0) six_requests
  /\ Forall (fun r => is_ok r = true)
       (fst (transfer_all no_faults alice six_requests example_db))
  /\ fst (transfer_all no_faults alice six_requests example_db) !! 5%nat
     = Some (Ok "Transfer successful" 1940%Q sixth_doc)
  /\ Transaction.type sixth_doc = TRANSFER
  /\ Transaction.fromUserId sixth_doc = Some alice
  /\ (Transaction.flagReason sixth_doc
      = Some "Multiple transfers in a short period" <-> (5 <= 5)%nat).
Proof.
  assert (H1 : recentTransfers (transactions example_db) 0 alice = [])
    by reflexivity.
  assert (H2 : Forall (within_hour 0) six_requests)
    by (repeat constructor; vm_compute; discriminate).
  assert (H3 : Forall (fun r => is_ok r = true)
                 (fst (transfer_all no_faults alice six_requests
                         example_db)))
    by (vm_compute; repeat constructor).
  assert (H4 : fst (transfer_all no_faults alice six_requests example_db)
               !! 5%nat
               = Some (Ok "Transfer successful" 1940%Q sixth_doc))
    by (vm_compute; reflexivity).
  split; [exact H1|]. split; [exact H2|]. split; [exact H3|].
  split; [exact H4|].
  destruct (velocity_flags_from_sixth no_faults alice 0 six_requests
              example_db 5 "Transfer successful" 1940%Q sixth_doc
              H1 H2 H3 H4) as (_ & _ & Hty & Hfrom & Hflag & _).
  split; [exact Hty|]. split; [exact Hfrom|]. exact Hflag.
Defined.

(** The claim as the spec words it fails on the fifth transfer: five
    transfers by alice within forty minutes all succeed, and the fifth is
    returned unflagged; when it is classified the committed collection
    holds four transfers of hers. *)
Lemma fifth_transfer_counterexample :
  fst (transfer_all no_faults alice five_requests example_db) !! 4%nat
  = Some (Ok "Transfer successful" 1950%Q fifth_doc)
  /\ Transaction.isFlagged fifth_doc = false
  /\ Transaction.flagReason fifth_doc = None
  /\ length (transactions
               (snd (transfer_all no_faults alice five_requests example_db)))
     = 5%nat
  /\ Forall (fun r => is_ok r = true)
       (fst (transfer_all no_faults alice five_requests example_db)).
Proof.
  split; [vm_compute; reflexivity|]. split; [reflexivity|].
  split; [reflexivity|]. split; [vm_compute; reflexivity|].
  vm_compute; repeat constructor.
Qed.

(** * Further properties of the routes *)

(** ** What a request can touch *)

(** Whatever a request to [/deposit], [/withdraw] or [/transfer] does and
    whichever calls reject: the users collection is untouched; no wallet is
    created or removed and every wallet keeps its currency; and the ledger
    is the old one followed by nothing when the answer is a failure, and by
    exactly the returned document, stamped with the time of the request,
    when it is a success. *)
Theorem request_frame fl now userId req db :
  let r := handle fl now userId req db in
  users (snd r) = users db
  /\ dom (wallets (snd r)) = dom (wallets db)
  /\ (forall u w,
        wallets db !! u = Some w ->
        exists w', wallets (snd r) !! u = Some w'
                   /\ Wallet.currency w' = Wallet.currency w)
  /\ match fst r with
     | Json _ _ => transactions (snd r) = transactions db
     | Ok _ _ tx =>
         transactions (snd r) = transactions db ++ [tx]
         /\ Transaction.createdAt tx = now
         /\ Transaction.isDeleted tx = false
     end.
Proof.
  assert (Hkeep : forall (m : gmap ObjectId Wallet.t) k v0 v u w,
            m !! k = Some v0 -> Wallet.currency v = Wallet.currency v0 ->
            m !! u = Some w ->
            exists w', <[k := v]> m !! u = Some w'
                       /\ Wallet.currency w' = Wallet.currency w).
  { intros m k v0 v u w Hk Hc Hu. destruct (decide (k = u)) as [->|Hne].
    - rewrite lookup_insert_eq. exists v. split; congruence.
    - rewrite lookup_insert_ne by exact Hne. eauto. }
  assert (Hfail : forall r : Response * Db,
            is_ok (fst r) = false -> snd r = db ->
            users (snd r) = users db
            /\ dom (wallets (snd r)) = dom (wallets db)
            /\ (forall u w,
                  wallets db !! u = Some w ->
                  exists w', wallets (snd r) !! u = Some w'
                             /\ Wallet.currency w' = Wallet.currency w)
            /\ match fst r with
               | Json _ _ => transactions (snd r) = transactions db
               | Ok _ _ tx =>
                   transactions (snd r) = transactions db ++ [tx]
                   /\ Transaction.createdAt tx = now
                   /\ Transaction.isDeleted tx = false
               end).
  { intros [[s msg | msg b tx] db'] Hno Hdb; cbn in *; subst;
      [|discriminate Hno]. repeat split; eauto. }
  destruct req as [amount | amount | toEmail amount]; cbn [handle].
  - destruct (deposit_cases fl now userId amount db)
      as [[Hno Hdb] | (a & w & _ & _ & Hw & ->)]; [exact (Hfail _ Hno Hdb)|].
    pose proof (annotated_financial (transactions db) now userId
                  (deposit_doc now userId a w)) as (_ & _ & _ & _ & _ & Hc).
    cbn [fst snd deposited users wallets transactions].
    split; [reflexivity|]. split; [|split].
    + apply dom_insert_lookup_L. rewrite Hw. eauto.
    + intros u w0 Hu. eapply Hkeep; eauto.
    + rewrite Hc. unfold annotated.
      destruct (detectFraud _ _ _ _); repeat split; reflexivity.
  - destruct (withdraw_cases fl now userId amount db)
      as [[Hno Hdb] | (a & w & _ & _ & Hw & _ & ->)];
      [exact (Hfail _ Hno Hdb)|].
    pose proof (annotated_financial (transactions db) now userId
                  (withdrawal_doc now userId a w))
      as (_ & _ & _ & _ & _ & Hc).
    cbn [fst snd withdrawn users wallets transactions].
    split; [reflexivity|]. split; [|split].
    + apply dom_insert_lookup_L. rewrite Hw. eauto.
    + intros u w0 Hu. eapply Hkeep; eauto.
    + rewrite Hc. unfold annotated.
      destruct (detectFraud _ _ _ _); repeat split; reflexivity.
  - destruct (transfer_cases fl now userId toEmail amount db)
      as [[Hno Hdb] | (e & a & r & sw & rw & _ & _ & _ & _ & Hne & Hs & _
                       & Hrw & ->)]; [exact (Hfail _ Hno Hdb)|].
    pose proof (annotated_financial (transactions db) now userId
                  (transfer_doc now userId (User._id r) a sw))
      as (_ & _ & _ & _ & _ & Hc).
    cbn [fst snd transferred users wallets transactions].
    split; [reflexivity|]. split; [|split].
    + rewrite dom_insert_lookup_L.
      * apply dom_insert_lookup_L. rewrite Hs. eauto.
      * rewrite lookup_insert_ne by congruence. rewrite Hrw. eauto.
    + intros u w0 Hu.
      destruct (Hkeep (wallets db) userId sw
                  (Wallet.mk (Wallet.balance sw - a)%Q (Wallet.currency sw))
                  u w0 Hs eq_refl Hu) as (w1 & Hw1 & Hc1).
      destruct (Hkeep (<[userId := Wallet.mk (Wallet.balance sw - a)%Q
                                     (Wallet.currency sw)]> (wallets db))
                  (User._id r) rw
                  (Wallet.mk (Wallet.balance rw + a)%Q (Wallet.currency rw))
                  u w1) as (w2 & Hw2 & Hc2); auto.
      { rewrite lookup_insert_ne by congruence. exact Hrw. }
      exists w2. split; [exact Hw2 | congruence].
    + rewrite Hc. unfold annotated.
      destruct (detectFraud _ _ _ _); repeat split; reflexivity.
Qed.

(** The wallet of an account that is not a party of the request is left
    exactly as it was, whatever the request and whichever calls reject. *)
Theorem bystander_wallet_untouched fl now userId req db u :
  ~ In u (parties userId req db) ->
  wallets (snd (handle fl now userId req db)) !! u = wallets db !! u.
Proof.
  intros Hu.
  destruct req as [amount | amount | toEmail amount]; cbn [handle parties] in *.
  - destruct (deposit_cases fl now userId amount db)
      as [[_ ->] | (a & w & _ & _ & Hw & ->)]; [reflexivity|].
    cbn [snd deposited wallets]. apply lookup_insert_ne.
    intros ->. apply Hu. left. reflexivity.
  - destruct (withdraw_cases fl now userId amount db)
      as [[_ ->] | (a & w & _ & _ & Hw & _ & ->)]; [reflexivity|].
    cbn [snd withdrawn wallets]. apply lookup_insert_ne.
    intros ->. apply Hu. left. reflexivity.
  - destruct (transfer_cases fl now userId toEmail amount db)
      as [[_ ->] | (e & a & r & sw & rw & -> & _ & _ & Hr & _ & _ & _ & _
                    & ->)]; [reflexivity|].
    rewrite Hr in Hu. cbn [snd transferred wallets].
    rewrite lookup_insert_ne; [rewrite lookup_insert_ne; [reflexivity|]|];
      intros Heq; apply Hu; rewrite Heq; cbn; auto.
Qed.

Lemma bystander_wallet_untouched_witness :
  ~ In bob (parties alice (Withdraw (Some 1500%Q)) example_db)
  /\ wallets (snd (handle no_faults 0 alice (Withdraw (Some 1500%Q))
                     example_db)) !! bob
     = wallets example_db !! bob.
Proof.
  assert (H : ~ In bob (parties alice (Withdraw (Some 1500%Q)) example_db))
    by (cbn; intros [H | []]; discriminate H).
  split; [exact H|].
  exact (bystander_wallet_untouched no_faults 0 alice
           (Withdraw (Some 1500%Q)) example_db bob H).
Defined.

(** ** A missing wallet *)

(** An actor without a wallet, asking with a positive amount while no call
    rejects, is answered 404 "Wallet not found" by [/deposit], [/withdraw]
    and [/balance] alike, and the database stays as it was. *)
Theorem wallet_not_found now userId a db :
  wallets db !! userId = None -> (0 < a)%Q ->
  deposit no_faults now userId (Some a) db = (WALLET_NOT_FOUND, db)
  /\ withdraw no_faults now userId (Some a) db = (WALLET_NOT_FOUND, db)
  /\ get_balance None userId db = Failed 404 "Wallet not found".
Proof.
  intros Hw Ha. apply bad_amount_false in Ha.
  unfold deposit, withdraw, route, deposit_body, withdraw_body, get_balance.
  rewrite Ha, Hw. step_handler. repeat split; reflexivity.
Qed.

Lemma wallet_not_found_witness :
  wallets example_db !! carol = None /\ (0 < 5)%Q
  /\ deposit no_faults 0 carol (Some 5%Q) example_db
     = (WALLET_NOT_FOUND, example_db)
  /\ withdraw no_faults 0 carol (Some 5%Q) example_db
     = (WALLET_NOT_FOUND, example_db)
  /\ get_balance None carol example_db = Failed 404 "Wallet not found".
Proof.
  split; [reflexivity|]. split; [reflexivity|].
  exact (wallet_not_found 0 carol 5%Q example_db eq_refl eq_refl).
Defined.

(** ** More on transfers *)

(** The last check of [/transfer]: a sender with enough funds whose
    recipient exists, is another account, but has no wallet, is answered
    404 "Recipient wallet not found" when no call rejects, and nothing is
    debited or recorded. *)
Theorem recipient_wallet_missing now X e a recipient senderWallet db :
  e <> "" -> (0 < a)%Q -> resolve e db = Some recipient ->
  User._id recipient <> X ->
  wallets db !! X = Some senderWallet ->
  (a <= Wallet.balance senderWallet)%Q ->
  wallets db !! User._id recipient = None ->
  transfer no_faults now X (Some e) (Some a) db
  = (RECIPIENT_WALLET_NOT_FOUND, db).
Proof.
  intros He Ha Hr Hself Hs Hb Hrw.
  apply bad_amount_false in Ha. apply Qltb_false in Hb.
  apply String.eqb_neq in He. apply N.eqb_neq in Hself.
  unfold resolve in Hr.
  unfold transfer, route, transfer_body. rewrite He, Ha. cbn [orb].
  step_handler. reflexivity.
Qed.

Lemma recipient_wallet_missing_witness :
  "carol@example.com" <> "" /\ (0 < 5)%Q
  /\ resolve "carol@example.com" example_db
     = Some (User.mk carol "carol@example.com" false)
  /\ carol <> alice
  /\ wallets example_db !! alice = Some (Wallet.mk 2000%Q "USD")
  /\ (5 <= 2000)%Q
  /\ wallets example_db !! carol = None
  /\ transfer no_faults 0 alice (Some "carol@example.com") (Some 5%Q)
       example_db
     = (RECIPIENT_WALLET_NOT_FOUND, example_db).
Proof.
  assert (H1 : "carol@example.com" <> "") by discriminate.
  assert (H2 : carol <> alice) by discriminate.
  assert (H3 : (5 <= 2000)%Q) by (vm_compute; discriminate).
  split; [exact H1|]. split; [reflexivity|]. split; [reflexivity|].
  split; [exact H2|]. split; [reflexivity|]. split; [exact H3|].
  split; [reflexivity|].
  exact (recipient_wallet_missing 0 alice "carol@example.com" 5%Q
           (User.mk carol "carol@example.com" false)
           (Wallet.mk 2000%Q "USD") example_db H1 eq_refl eq_refl H2
           eq_refl H3 eq_refl).
Defined.

(** Money only goes to live accounts: whenever [/transfer] answers with
    success, the destination recorded on the transaction is a user of the
    collection that has the email asked for and is not soft-deleted, and it
    is not the sender. *)
Theorem transfer_recipient_is_active fl now X toEmail amount db m b tx db' :
  transfer fl now X toEmail amount db = (Ok m b tx, db') ->
  exists e recipient,
    toEmail = Some e /\ e <> ""
    /\ In recipient (users db)
    /\ User.email recipient = e
    /\ User.isDeleted recipient = false
    /\ User._id recipient <> X
    /\ Transaction.toUserId tx = Some (User._id recipient).
Proof.
  intros Hrun.
  destruct (transfer_cases fl now X toEmail amount db)
    as [[Hno _] | (e & a & r & sw & rw & -> & -> & Ha & Hr & Hne & Hs & Hle
                   & Hrw & Heq)].
  { rewrite Hrun in Hno. discriminate Hno. }
  assert (He : e <> "").
  { intros ->. unfold transfer, route, transfer_body in Hrun.
    cbn in Hrun. discriminate Hrun. }
  rewrite Hrun in Heq. injection Heq as -> -> -> ->.
  unfold resolve in Hr. apply find_some in Hr as [Hin Hp].
  apply andb_true_iff in Hp as [Hmail Hdel].
  apply String.eqb_eq in Hmail. apply negb_true_iff in Hdel.
  pose proof (annotated_financial (transactions db) now X
                (transfer_doc now X (User._id r) a sw)) as (_ & Ht & _).
  exists e, r. repeat split; auto.
Qed.

Lemma transfer_recipient_is_active_witness :
  transfer no_faults 0 alice (Some "bob@example.com") (Some 10%Q) example_db
  = (Ok "Transfer successful" 1990%Q example_transfer_doc,
     example_transfer_db)
  /\ exists e recipient,
    Some "bob@example.com" = Some e /\ e <> ""
    /\ In recipient (users example_db)
    /\ User.email recipient = e
    /\ User.isDeleted recipient = false
    /\ User._id recipient <> alice
    /\ Transaction.toUserId example_transfer_doc
       = Some (User._id recipient).
Proof.
  split; [vm_compute; reflexivity|].
  apply (transfer_recipient_is_active no_faults 0 alice
           (Some "bob@example.com") (Some 10%Q) example_db
           "Transfer successful" 1990%Q _ example_transfer_db).
  vm_compute; reflexivity.
Defined.

(** ** Reading the balance back *)

(** The balance a successful request reports is the balance stored: right
    after any successful deposit, withdrawal or transfer, [/balance] for the
    actor answers 200 with exactly the reported balance, in the currency the
    actor's wallet had before. *)
Theorem balance_reads_back fl now userId req db m b tx db' :
  handle fl now userId req db = (Ok m b tx, db') ->
  exists wallet,
    wallets db !! userId = Some wallet
    /\ get_balance None userId db' = Sent (b, Wallet.currency wallet).
Proof.
  intros Hrun. unfold get_balance.
  destruct req as [amount | amount | toEmail amount]; cbn [handle] in Hrun.
  - destruct (deposit_cases fl now userId amount db)
      as [[Hno _] | (a & w & _ & _ & Hw & Heq)].
    { rewrite Hrun in Hno. discriminate Hno. }
    rewrite Hrun in Heq. injection Heq as -> -> -> ->.
    exists w. split; [exact Hw|].
    unfold deposited; cbn [wallets]. rewrite lookup_insert_eq. reflexivity.
  - destruct (withdraw_cases fl now userId amount db)
      as [[Hno _] | (a & w & _ & _ & Hw & _ & Heq)].
    { rewrite Hrun in Hno. discriminate Hno. }
    rewrite Hrun in Heq. injection Heq as -> -> -> ->.
    exists w. split; [exact Hw|].
    unfold withdrawn; cbn [wallets]. rewrite lookup_insert_eq. reflexivity.
  - destruct (transfer_cases fl now userId toEmail amount db)
      as [[Hno _] | (e & a & r & sw & rw & _ & _ & _ & _ & Hne & Hs & _ & _
                     & Heq)].
    { rewrite Hrun in Hno. discriminate Hno. }
    rewrite Hrun in Heq. injection Heq as -> -> -> ->.
    exists sw. split; [exact Hs|].
    unfold transferred; cbn [wallets].
    rewrite lookup_insert_ne by exact Hne.
    rewrite lookup_insert_eq. reflexivity.
Qed.

Lemma balance_reads_back_witness :
  handle no_faults 0 alice (Transfer (Some "bob@example.com") (Some 10%Q))
    example_db
  = (Ok "Transfer successful" 1990%Q example_transfer_doc,
     example_transfer_db)
  /\ exists wallet,
    wallets example_db !! alice = Some wallet
    /\ get_balance None alice example_transfer_db
       = Sent (1990%Q, Wallet.currency wallet).
Proof.
  split; [vm_compute; reflexivity|].
  apply (balance_reads_back no_faults 0 alice
           (Transfer (Some "bob@example.com") (Some 10%Q)) example_db
           "Transfer successful" 1990%Q example_transfer_doc).
  vm_compute; reflexivity.
Defined.

(** ** The transaction history *)

Lemma insert_desc_perm t l : Permutation (insert_desc t l) (t :: l).
Proof.
  induction l as [|x l IH]; cbn [insert_desc]; [reflexivity|].
  destruct (Transaction.createdAt x <=? Transaction.createdAt t)%Z;
    [reflexivity|].
  rewrite IH. apply perm_swap.
Qed.

Lemma sort_createdAt_desc_perm l : Permutation (sort_createdAt_desc l) l.
Proof.
  induction l as [|x l IH]; cbn [sort_createdAt_desc fold_right];
    [reflexivity|].
  fold (sort_createdAt_desc l). rewrite insert_desc_perm, IH. reflexivity.
Qed.

Lemma insert_desc_sorted t l :
  StronglySorted newer_first l -> StronglySorted newer_first (insert_desc t l).
Proof.
  induction l as [|x l IH]; intros Hs; cbn [insert_desc].
  - repeat constructor.
  - apply StronglySorted_inv in Hs as [Hs Hx].
    destruct (Transaction.createdAt x <=? Transaction.createdAt t)%Z eqn:E.
    + apply Z.leb_le in E. constructor; [constructor; assumption|].
      constructor; [exact E|].
      eapply List.Forall_impl; [|exact Hx].
      intros y Hy. unfold newer_first in *. lia.
    + apply Z.leb_gt in E. constructor; [apply IH, Hs|].
      eapply Permutation_Forall; [symmetry; apply insert_desc_perm|].
      constructor; [unfold newer_first; lia | exact Hx].
Qed.

Lemma sort_createdAt_desc_sorted l :
  StronglySorted newer_first (sort_createdAt_desc l).
Proof.
  induction l as [|x l IH]; cbn [sort_createdAt_desc fold_right];
    [constructor|].
  apply insert_desc_sorted, IH.
Qed.

Lemma in_history_touches userId t :
  in_history userId t = true
  <-> touches userId t /\ Transaction.isDeleted t = false.
Proof.
  unfold in_history, touches.
  rewrite andb_true_iff, orb_true_iff, negb_true_iff.
  assert (Hopt : forall o, opt_eqb o userId = true <-> o = Some userId).
  { intros [i|]; cbn; [rewrite N.eqb_eq|]; split; congruence. }
  rewrite !Hopt. reflexivity.
Qed.

(** [/transactions] answers 200 (when the find does not reject) with
    exactly the transactions of the collection that have the user as source
    or destination and are not soft-deleted, each as often as it is in the
    collection, most recent first. *)
Theorem history_contents userId db :
  exists l,
    get_transactions None userId db = Sent l
    /\ (forall t, In t l <->
          In t (transactions db) /\ touches userId t
          /\ Transaction.isDeleted t = false)
    /\ Permutation l (List.filter (in_history userId) (transactions db))
    /\ StronglySorted newer_first l.
Proof.
  eexists. split; [reflexivity|]. split; [|split].
  - intros t. split.
    + intros Hin.
      apply (Permutation_in _ (sort_createdAt_desc_perm _)) in Hin.
      apply filter_In in Hin as [Hin Hp].
      apply in_history_touches in Hp. tauto.
    + intros (Hin & Ht & Hd).
      apply (Permutation_in _ (Permutation_sym (sort_createdAt_desc_perm _))).
      apply filter_In. split; [exact Hin|].
      apply in_history_touches. tauto.
  - apply sort_createdAt_desc_perm.
  - apply sort_createdAt_desc_sorted.
Qed.

(** What a successful request commits: the ledger gains the returned
    document, which is the annotation of one of the three documents the
    routes create. *)
Lemma handle_ok_doc fl now userId req db m b tx db' :
  handle fl now userId req db = (Ok m b tx, db') ->
  exists doc,
    tx = annotated (transactions db) now userId doc
    /\ transactions db' = transactions db ++ [tx]
    /\ users db' = users db
    /\ ((exists a w, doc = deposit_doc now userId a w /\ (0 < a)%Q)
        \/ (exists a w, doc = withdrawal_doc now userId a w /\ (0 < a)%Q)
        \/ (exists a w rid,
              doc = transfer_doc now userId rid a w /\ (0 < a)%Q
              /\ rid <> userId)).
Proof.
  intros Hrun.
  destruct req as [amount | amount | toEmail amount]; cbn [handle] in Hrun.
  - destruct (deposit_cases fl now userId amount db)
      as [[Hno _] | (a & w & _ & Ha & Hw & Heq)].
    { rewrite Hrun in Hno. discriminate Hno. }
    rewrite Hrun in Heq. injection Heq as -> -> -> ->.
    exists (deposit_doc now userId a w). repeat split; eauto 10.
  - destruct (withdraw_cases fl now userId amount db)
      as [[Hno _] | (a & w & _ & Ha & Hw & _ & Heq)].
    { rewrite Hrun in Hno. discriminate Hno. }
    rewrite Hrun in Heq. injection Heq as -> -> -> ->.
    exists (withdrawal_doc now userId a w). repeat split; eauto 10.
  - destruct (transfer_cases fl now userId toEmail amount db)
      as [[Hno _] | (e & a & r & sw & rw & _ & _ & Ha & _ & Hne & _ & _ & _
                     & Heq)].
    { rewrite Hrun in Hno. discriminate Hno. }
    rewrite Hrun in Heq. injection Heq as -> -> -> ->.
    exists (transfer_doc now userId (User._id r) a sw).
    repeat split; eauto 10.
Qed.

Lemma annotated_isDeleted Transactions now userId doc :
  Transaction.isDeleted (annotated Transactions now userId doc)
  = Transaction.isDeleted doc.
Proof. unfold annotated. destruct (detectFraud _ _ _ _); reflexivity. Qed.

(** A successful request shows up in the histories of its parties and of
    nobody else: right after it, the history of a user who is source or
    destination of the returned transaction is the old history with that
    transaction added, and every other user's history is exactly the old
    one.  The actor is always a party. *)
Theorem history_after_request fl now userId req db m b tx db' u :
  handle fl now userId req db = (Ok m b tx, db') ->
  exists l l',
    get_transactions None u db = Sent l
    /\ get_transactions None u db' = Sent l'
    /\ (touches u tx -> Permutation l' (tx :: l))
    /\ (~ touches u tx -> l' = l)
    /\ touches userId tx.
Proof.
  intros Hrun.
  destruct (handle_ok_doc fl now userId req db m b tx db' Hrun)
    as (doc & Htx & Hledger & _ & Hdoc).
  pose proof (annotated_financial (transactions db) now userId doc)
    as (Hf & Ht & _).
  pose proof (annotated_isDeleted (transactions db) now userId doc) as Hd.
  rewrite <- Htx in Hf, Ht, Hd.
  assert (Hdel : Transaction.isDeleted tx = false).
  { rewrite Hd.
    destruct Hdoc as [(a & w & -> & _) | [(a & w & -> & _)
                     | (a & w & rid & -> & _)]]; reflexivity. }
  assert (Hactor : touches userId tx).
  { unfold touches. rewrite Hf, Ht.
    destruct Hdoc as [(a & w & -> & _) | [(a & w & -> & _)
                     | (a & w & rid & -> & _)]]; cbn; auto. }
  eexists _, _. split; [reflexivity|]. split; [reflexivity|].
  rewrite Hledger, List.filter_app. cbn [List.filter].
  split; [|split; [|exact Hactor]].
  - intros Hu.
    rewrite (proj2 (in_history_touches u tx) (conj Hu Hdel)).
    rewrite sort_createdAt_desc_perm, sort_createdAt_desc_perm.
    rewrite Permutation_app_comm. reflexivity.
  - intros Hu.
    destruct (in_history u tx) eqn:E.
    + apply in_history_touches in E. tauto.
    + rewrite app_nil_r. reflexivity.
Qed.

Lemma history_after_request_witness :
  handle no_faults 0 alice (Transfer (Some "bob@example.com") (Some 10%Q))
    example_db
  = (Ok "Transfer successful" 1990%Q example_transfer_doc,
     example_transfer_db)
  /\ exists l l',
    get_transactions None bob example_db = Sent l
    /\ get_transactions None bob example_transfer_db = Sent l'
    /\ (touches bob example_transfer_doc
        -> Permutation l' (example_transfer_doc :: l))
    /\ (~ touches bob example_transfer_doc -> l' = l)
    /\ touches alice example_transfer_doc.
Proof.
  split; [vm_compute; reflexivity|].
  apply (history_after_request no_faults 0 alice
           (Transfer (Some "bob@example.com") (Some 10%Q)) example_db
           "Transfer successful" 1990%Q).
  vm_compute; reflexivity.
Defined.

(** ** More on the detector *)

Lemma detectFraud_reasons Transactions now userId doc :
  detectFraud Transactions now userId doc = None
  \/ detectFraud Transactions now userId doc = Some VELOCITY
  \/ detectFraud Transactions now userId doc = Some LARGE
  \/ detectFraud Transactions now userId doc = Some OUTLIER.
Proof.
  unfold detectFraud.
  destruct (_ && _); [auto|]. destruct (_ && _); [auto|].
  destruct (_ && _); auto.
Qed.

(** An actor with no transaction in the last 30 days, as source or as
    destination, is never flagged, except for a withdrawal above 1000: with
    an empty 30-day history neither the velocity rule nor the outlier rule
    can match. *)
Theorem no_history_no_flag Transactions now userId doc :
  recentTransactions Transactions now userId = [] ->
  ~ (Transaction.type doc = WITHDRAWAL
     /\ (1000 < Transaction.amount doc)%Q) ->
  detectFraud Transactions now userId doc = None.
Proof.
  intros Hnone Hlarge.
  assert (Hv : recentTransfers Transactions now userId = []).
  { destruct (recentTransfers Transactions now userId) as [|t l] eqn:E;
      [reflexivity|].
    assert (Hin : In t (recentTransfers Transactions now userId))
      by (rewrite E; left; reflexivity).
    apply recentTransfers_spec in Hin as (Hin & Hf & _ & Hc).
    assert (Hin' : In t (recentTransactions Transactions now userId)).
    { apply recentTransactions_spec. split; [exact Hin|].
      split; [left; exact Hf | lia]. }
    rewrite Hnone in Hin'. destruct Hin'. }
  unfold detectFraud. rewrite Hv, Hnone. cbn [length Nat.leb Nat.ltb].
  rewrite andb_false_r. cbn [andb].
  destruct (TxType_eqb (Transaction.type doc) WITHDRAWAL
            && Qltb 1000 (Transaction.amount doc)) eqn:E; [|reflexivity].
  exfalso. apply Hlarge. apply andb_true_iff in E as [Hty Hamt].
  apply Qltb_true in Hamt. split; [|exact Hamt].
  destruct (Transaction.type doc); cbn in Hty; congruence.
Qed.

Lemma no_history_no_flag_witness :
  recentTransactions (transactions example_db) 0 bob = []
  /\ ~ (Transaction.type (deposit_doc 0 bob 5000%Q (Wallet.mk 0%Q "EUR"))
        = WITHDRAWAL
        /\ (1000 < Transaction.amount
                     (deposit_doc 0 bob 5000%Q (Wallet.mk 0%Q "EUR")))%Q)
  /\ detectFraud (transactions example_db) 0 bob
       (deposit_doc 0 bob 5000%Q (Wallet.mk 0%Q "EUR")) = None.
Proof.
  assert (H : ~ (Transaction.type
                   (deposit_doc 0 bob 5000%Q (Wallet.mk 0%Q "EUR"))
                 = WITHDRAWAL
                 /\ (1000 < Transaction.amount
                              (deposit_doc 0 bob 5000%Q
                                 (Wallet.mk 0%Q "EUR")))%Q))
    by (intros [H _]; discriminate H).
  split; [reflexivity|]. split; [exact H|].
  exact (no_history_no_flag (transactions example_db) 0 bob
           (deposit_doc 0 bob 5000%Q (Wallet.mk 0%Q "EUR")) eq_refl H).
Defined.

(** Flagging is monotone in the amount: over the same history, at the same
    time and for the same actor, if a transaction is flagged then a
    transaction of the same type with an amount at least as large is
    flagged too (possibly for another reason). *)
Theorem flagged_monotone_in_amount Transactions now userId doc doc' :
  Transaction.type doc' = Transaction.type doc ->
  (Transaction.amount doc <= Transaction.amount doc')%Q ->
  detectFraud Transactions now userId doc <> None ->
  detectFraud Transactions now userId doc' <> None.
Proof.
  intros Hty Hamt. unfold detectFraud. rewrite Hty.
  set (avg3 := (avgAmount (recentTransactions Transactions now userId) * 3)%Q).
  assert (Hout : forall c : bool,
            (if c && Qltb avg3 (Transaction.amount doc)
             then Some OUTLIER else None) <> None ->
            (if c && Qltb avg3 (Transaction.amount doc')
             then Some OUTLIER else None) <> None).
  { intros [|]; cbn [andb]; [|exact (fun H => H)].
    destruct (Qltb avg3 (Transaction.amount doc)) eqn:E3;
      [|intros H; destruct (H eq_refl)].
    apply Qltb_true in E3.
    assert (E4 : Qltb avg3 (Transaction.amount doc') = true)
      by (apply Qltb_true; lra).
    rewrite E4. discriminate. }
  destruct (TxType_eqb (Transaction.type doc) TRANSFER
            && (5 <=? length (recentTransfers Transactions now userId))%nat);
    [discriminate|].
  destruct (TxType_eqb (Transaction.type doc) WITHDRAWAL); cbn [andb];
    [|apply Hout].
  destruct (Qltb 1000 (Transaction.amount doc)) eqn:E1.
  - apply Qltb_true in E1.
    assert (E2 : Qltb 1000 (Transaction.amount doc') = true)
      by (apply Qltb_true; lra).
    rewrite E2. discriminate.
  - destruct (Qltb 1000 (Transaction.amount doc')); [discriminate|].
    apply Hout.
Qed.

Lemma flagged_monotone_in_amount_witness :
  Transaction.type (withdrawal_doc 0 alice 1800%Q (Wallet.mk 2000%Q "USD"))
  = Transaction.type (withdrawal_doc 0 alice 1500%Q (Wallet.mk 2000%Q "USD"))
  /\ (Transaction.amount
        (withdrawal_doc 0 alice 1500%Q (Wallet.mk 2000%Q "USD"))
      <= Transaction.amount
           (withdrawal_doc 0 alice 1800%Q (Wallet.mk 2000%Q "USD")))%Q
  /\ detectFraud [] 0 alice
       (withdrawal_doc 0 alice 1500%Q (Wallet.mk 2000%Q "USD")) <> None
  /\ detectFraud [] 0 alice
       (withdrawal_doc 0 alice 1800%Q (Wallet.mk 2000%Q "USD")) <> None.
Proof.
  assert (H1 : (Transaction.amount
                  (withdrawal_doc 0 alice 1500%Q (Wallet.mk 2000%Q "USD"))
                <= Transaction.amount
                     (withdrawal_doc 0 alice 1800%Q
                        (Wallet.mk 2000%Q "USD")))%Q)
    by (vm_compute; discriminate).
  assert (H2 : detectFraud [] 0 alice
                 (withdrawal_doc 0 alice 1500%Q (Wallet.mk 2000%Q "USD"))
               <> None) by (vm_compute; discriminate).
  split; [reflexivity|]. split; [exact H1|]. split; [exact H2|].
  exact (flagged_monotone_in_amount [] 0 alice
           (withdrawal_doc 0 alice 1500%Q (Wallet.mk 2000%Q "USD"))
           (withdrawal_doc 0 alice 1800%Q (Wallet.mk 2000%Q "USD"))
           eq_refl H1 H2).
Defined.

Lemma filter_related (p : Transaction.t -> bool) l l' :
  (forall t t', same_for_detector t t' -> p t = p t') ->
  Forall2 same_for_detector l l' ->
  Forall2 same_for_detector (List.filter p l) (List.filter p l').
Proof.
  intros Hp H. induction H as [|t t' l l' Ht Hl IH]; cbn [List.filter];
    [constructor|].
  rewrite (Hp t t' Ht). destruct (p t'); [constructor|]; assumption.
Qed.

Lemma avgAmount_related l l' :
  Forall2 same_for_detector l l' -> avgAmount l = avgAmount l'.
Proof.
  intros H. unfold avgAmount.
  rewrite (Forall2_length _ _ _ H). f_equal.
  generalize 0%Q. induction H as [|t t' l l' Ht Hl IH]; intros acc;
    cbn [fold_left]; [reflexivity|].
  destruct Ht as (_ & _ & Hamt & _). rewrite Hamt. apply IH.
Qed.

(** The detector reads of a past transaction only its parties, amount, type
    and creation time: two histories that agree on these, document by
    document, give the same verdict.  In particular transactions that were
    soft-deleted still count, and amounts are averaged whatever their
    currency. *)
Theorem detector_ignores_deletion L L' now userId doc :
  Forall2 same_for_detector L L' ->
  detectFraud L now userId doc = detectFraud L' now userId doc.
Proof.
  intros H.
  assert (H1 : Forall2 same_for_detector (recentTransfers L now userId)
                 (recentTransfers L' now userId)).
  { apply filter_related; [|exact H].
    intros t t' (Hf & Ht & _ & Hty & Hc). rewrite Hf, Hty, Hc. reflexivity. }
  assert (H2 : Forall2 same_for_detector (recentTransactions L now userId)
                 (recentTransactions L' now userId)).
  { apply filter_related; [|exact H].
    intros t t' (Hf & Ht & _ & Hty & Hc). rewrite Hf, Ht, Hc. reflexivity. }
  unfold detectFraud.
  rewrite (Forall2_length _ _ _ H1), (Forall2_length _ _ _ H2),
    (avgAmount_related _ _ H2).
  reflexivity.
Qed.

Lemma detector_ignores_deletion_witness :
  Forall2 same_for_detector [example_transfer_doc]
    [soft_delete example_transfer_doc]
  /\ detectFraud [example_transfer_doc] 1000 alice
       (transfer_doc 1000 alice bob 40%Q (Wallet.mk 1990%Q "USD"))
     = detectFraud [soft_delete example_transfer_doc] 1000 alice
         (transfer_doc 1000 alice bob 40%Q (Wallet.mk 1990%Q "USD"))
  /\ detectFraud [soft_delete example_transfer_doc] 1000 alice
       (transfer_doc 1000 alice bob 40%Q (Wallet.mk 1990%Q "USD"))
     = Some OUTLIER.
Proof.
  assert (H : Forall2 same_for_detector [example_transfer_doc]
                [soft_delete example_transfer_doc])
    by (repeat constructor).
  split; [exact H|].
  split; [|vm_compute; reflexivity].
  exact (detector_ignores_deletion [example_transfer_doc]
           [soft_delete example_transfer_doc] 1000 alice
           (transfer_doc 1000 alice bob 40%Q (Wallet.mk 1990%Q "USD")) H).
Defined.

(** ** The shape of the ledger *)

Lemma annotated_well_formed Transactions now userId doc :
  Transaction.isFlagged doc = false -> Transaction.flagReason doc = None ->
  well_formed doc -> well_formed (annotated Transactions now userId doc).
Proof.
  intros Hflag Hreason (Hamt & _ & _ & Hparties).
  pose proof (detectFraud_reasons Transactions now userId doc) as Hr.
  unfold annotated.
  destruct (detectFraud Transactions now userId doc) as [reason|];
    unfold well_formed; cbn [flag Transaction.amount Transaction.isFlagged
      Transaction.flagReason Transaction.type Transaction.fromUserId
      Transaction.toUserId].
  - repeat split; auto;
      try (destruct Hr as [Hr | Hr]; [discriminate Hr | auto]).
  - rewrite Hflag, Hreason. repeat split; auto.
Qed.

(** The routes keep the ledger well formed: if every transaction of the
    ledger has a positive amount, is flagged exactly when it has a reason
    (one of the detector's three), and has the parties its type calls for
    (a DEPOSIT only a destination, a WITHDRAWAL only a source, a TRANSFER
    two different accounts), then so has every transaction of the ledger a
    request leaves behind, whatever the request and whichever calls
    reject. *)
Theorem ledger_stays_well_formed fl now userId req db :
  Forall well_formed (transactions db) ->
  Forall well_formed (transactions (snd (handle fl now userId req db))).
Proof.
  intros Hinv.
  destruct (handle fl now userId req db) as [[s msg | m b tx] db'] eqn:Hrun.
  - destruct (handle_cases fl now userId req db)
      as [[_ Hdb] | (doc & m & b & _ & Hsame & Hok & _)].
    + rewrite Hrun in Hdb. cbn [snd] in *. subst db'. exact Hinv.
    + rewrite <- Hsame, Hrun in Hok. discriminate Hok.
  - destruct (handle_ok_doc fl now userId req db m b tx db' Hrun)
      as (doc & -> & Hledger & _ & Hdoc).
    cbn [snd]. rewrite Hledger. apply Forall_app. split; [exact Hinv|].
    constructor; [|constructor].
    destruct Hdoc as [(a & w & -> & Ha) | [(a & w & -> & Ha)
                     | (a & w & rid & -> & Ha & Hne)]];
      apply annotated_well_formed; try reflexivity;
      unfold well_formed; cbn; repeat split; eauto.
Qed.

Lemma ledger_stays_well_formed_witness :
  Forall well_formed (transactions example_transfer_db)
  /\ Forall well_formed
       (transactions
          (snd (handle no_faults 5000 alice (Withdraw (Some 1500%Q))
                  example_transfer_db))).
Proof.
  assert (H : Forall well_formed (transactions example_transfer_db)).
  { repeat constructor; cbn; eauto. }
  split; [exact H|].
  exact (ledger_stays_well_formed no_faults 5000 alice
           (Withdraw (Some 1500%Q)) example_transfer_db H).
Defined.

(** ** The admin's list of flagged transactions *)

(** [/flagged-transactions]: a caller who is not an admin is answered 403
    whatever the database holds; an admin (when the find does not reject) is
    sent exactly the transactions that are flagged and not soft-deleted,
    most recent first, each with the [_id] and email of its source and
    destination users looked up in the users collection. *)
Theorem flagged_list_contents db :
  (forall rejects,
      flagged_transactions rejects false db
      = Failed 403 "Admin access required")
  /\ exists l,
       flagged_transactions None true db = Sent l
       /\ (forall t, In t (List.map Populated.doc l) <->
             In t (transactions db) /\ Transaction.isFlagged t = true
             /\ Transaction.isDeleted t = false)
       /\ StronglySorted newer_first (List.map Populated.doc l)
       /\ (forall p, In p l ->
             Populated.fromUser p
             = populate (users db) (Transaction.fromUserId (Populated.doc p))
             /\ Populated.toUser p
                = populate (users db)
                    (Transaction.toUserId (Populated.doc p))).
Proof.
  split; [reflexivity|].
  eexists. split; [reflexivity|].
  rewrite List.map_map. cbn [Populated.doc]. rewrite List.map_id.
  split; [|split].
  - intros t. split.
    + intros Hin.
      apply (Permutation_in _ (sort_createdAt_desc_perm _)) in Hin.
      apply filter_In in Hin as [Hin Hp].
      apply andb_true_iff in Hp as [Hf Hd]. apply negb_true_iff in Hd.
      auto.
    + intros (Hin & Hf & Hd).
      apply (Permutation_in _ (Permutation_sym (sort_createdAt_desc_perm _))).
      apply filter_In. split; [exact Hin|]. rewrite Hf, Hd. reflexivity.
  - apply sort_createdAt_desc_sorted.
  - intros p Hin. apply in_map_iff in Hin as (t & <- & _).
    split; reflexivity.
Qed.

(** A transaction that a successful request returns flagged is on the
    admin's list right afterwards, with its parties' emails as the users
    collection has them; a transaction returned unflagged leaves the
    admin's list as it was. *)
Theorem flagged_request_reaches_admin fl now userId req db m b tx db' :
  handle fl now userId req db = (Ok m b tx, db') ->
  (Transaction.isFlagged tx = true ->
   exists l,
     flagged_transactions None true db' = Sent l
     /\ In (Populated.mk tx
              (populate (users db) (Transaction.fromUserId tx))
              (populate (users db) (Transaction.toUserId tx))) l)
  /\ (Transaction.isFlagged tx = false ->
      flagged_transactions None true db'
      = flagged_transactions None true db).
Proof.
  intros Hrun.
  destruct (handle_ok_doc fl now userId req db m b tx db' Hrun)
    as (doc & Htx & Hledger & Husers & Hdoc).
  pose proof (annotated_isDeleted (transactions db) now userId doc) as Hd.
  rewrite <- Htx in Hd.
  assert (Hdel : Transaction.isDeleted tx = false).
  { rewrite Hd.
    destruct Hdoc as [(a & w & -> & _) | [(a & w & -> & _)
                     | (a & w & rid & -> & _)]]; reflexivity. }
  unfold flagged_transactions, isAdmin. cbn [negb].
  rewrite Hledger, Husers, List.filter_app. cbn [List.filter].
  rewrite Hdel. cbn [negb]. rewrite andb_true_r.
  split; intros Hflag; rewrite Hflag.
  - eexists. split; [reflexivity|].
    apply in_map_iff. exists tx. split; [reflexivity|].
    apply (Permutation_in _ (Permutation_sym (sort_createdAt_desc_perm _))).
    apply in_or_app. right. left. reflexivity.
  - rewrite app_nil_r. reflexivity.
Qed.

Lemma flagged_request_reaches_admin_witness :
  handle no_faults 0 alice (Withdraw (Some 1500%Q)) example_db
  = (Ok "Withdrawal successful" 500%Q
       (Transaction.mk (Some alice) None 1500%Q WITHDRAWAL "USD" true
          (Some "Large withdrawal") false 0),
     snd (handle no_faults 0 alice (Withdraw (Some 1500%Q)) example_db))
  /\ (true = true ->
      exists l,
        flagged_transactions None true
          (snd (handle no_faults 0 alice (Withdraw (Some 1500%Q))
                  example_db)) = Sent l
        /\ In (Populated.mk
                 (Transaction.mk (Some alice) None 1500%Q WITHDRAWAL "USD"
                    true (Some "Large withdrawal") false 0)
                 (Some (alice, "alice@example.com")) None) l).
Proof.
  assert (H : handle no_faults 0 alice (Withdraw (Some 1500%Q)) example_db
              = (Ok "Withdrawal successful" 500%Q
                   (Transaction.mk (Some alice) None 1500%Q WITHDRAWAL "USD"
                      true (Some "Large withdrawal") false 0),
                 snd (handle no_faults 0 alice (Withdraw (Some 1500%Q))
                        example_db)))
    by (vm_compute; reflexivity).
  split; [exact H|].
  exact (proj1 (flagged_request_reaches_admin no_faults 0 alice
                  (Withdraw (Some 1500%Q)) example_db _ _ _ _ H)).
Defined.

(** ** Authentication *)

Lemma split_space_cons s : exists w ws, split_space s = w :: ws.
Proof.
  induction s as [|c s (w & ws & IH)]; cbn [split_space]; [eauto|].
  destruct (Ascii.eqb c " "); [eauto|]. rewrite IH. eauto.
Qed.

Lemma split_space_no_space s : no_space s = true -> split_space s = [s].
Proof.
  induction s as [|c s IH]; cbn [split_space no_space]; [reflexivity|].
  intros H. apply andb_true_iff in H as [Hc Hs].
  apply negb_true_iff in Hc. rewrite Hc, (IH Hs). reflexivity.
Qed.

Lemma split_space_app s rest :
  no_space s = true ->
  split_space (s ++ String " " rest) = s :: split_space rest.
Proof.
  induction s as [|c s IH]; [reflexivity|].
  change (String c s ++ String " " rest)%string
    with (String c (s ++ String " " rest)%string).
  cbn [split_space no_space].
  intros H. apply andb_true_iff in H as [Hc Hs].
  apply negb_true_iff in Hc. rewrite Hc, (IH Hs). reflexivity.
Qed.

Lemma token_of_scheme s rest :
  no_space s = true ->
  token_of (Some (s ++ String " " rest)%string)
  = Some (hd EmptyString (split_space rest)).
Proof.
  intros Hs. unfold token_of.
  replace (String.eqb (s ++ String " " rest)%string "") with false
    by (destruct s; reflexivity).
  rewrite (split_space_app s rest Hs).
  destruct (split_space_cons rest) as (w & ws & ->). reflexivity.
Qed.

Section AuthProperties.

Variable jwt_verify : string -> option (option ObjectId).
Variable isAdmin_field : User.t -> bool.

(** Passing [authenticateToken] means: the header had a second
    space-separated part, non-empty, that [jwt.verify] accepted; the
    [userId] of its payload is the [_id] of a user of the collection that is
    not soft-deleted; and [req.user] carries that user's id, email and admin
    flag.  The lookup did not reject. *)
Theorem authenticated_user_is_active rejects authorization db reqUser :
  authenticateToken jwt_verify isAdmin_field rejects authorization db
  = Next_ reqUser ->
  exists token user,
    token_of authorization = Some token /\ token <> ""
    /\ jwt_verify token = Some (Some (User._id user))
    /\ rejects = false
    /\ In user (users db)
    /\ User.isDeleted user = false
    /\ reqUser = Req.mk (User._id user) (User.email user)
                   (isAdmin_field user).
Proof.
  unfold authenticateToken.
  destruct (token_of authorization) as [token|]; [|discriminate].
  destruct (String.eqb token "") eqn:Htok; [discriminate|].
  apply String.eqb_neq in Htok.
  destruct (jwt_verify token) as [[id|]|] eqn:Hv; try discriminate;
    destruct rejects; try discriminate.
  destruct (find _ (users db)) as [user|] eqn:Hf; [|discriminate].
  apply find_some in Hf as [Hin Hid]. apply N.eqb_eq in Hid. subst id.
  destruct (User.isDeleted user) eqn:Hd; [discriminate|].
  intros [= <-]. exists token, user. repeat split; auto.
Qed.

(** The scheme word of the header is never looked at: for any first word
    without a space, the header [word ++ " " ++ rest] is treated exactly as
    ["Bearer " ++ rest]. *)
Theorem scheme_word_ignored rejects word rest db :
  no_space word = true ->
  authenticateToken jwt_verify isAdmin_field rejects
    (Some (word ++ String " " rest)%string) db
  = authenticateToken jwt_verify isAdmin_field rejects
      (Some ("Bearer" ++ String " " rest)%string) db.
Proof.
  intros Hw. unfold authenticateToken.
  rewrite (token_of_scheme word rest Hw).
  rewrite (token_of_scheme "Bearer" rest eq_refl). reflexivity.
Qed.

(** A request with no [authorization] header, or with one that has no
    space in it, is answered 401 "Access denied"; the token verifier and the
    database play no part. *)
Theorem header_without_token_denied rejects authorization db :
  match authorization with
  | None => True
  | Some authHeader => no_space authHeader = true
  end ->
  authenticateToken jwt_verify isAdmin_field rejects authorization db
  = Denied 401 "Access denied".
Proof.
  unfold authenticateToken, token_of.
  destruct authorization as [h|]; [|reflexivity].
  intros Hh. destruct (String.eqb h "") eqn:E; [reflexivity|].
  rewrite (split_space_no_space h Hh). reflexivity.
Qed.

End AuthProperties.

Lemma authenticated_user_is_active_witness :
  authenticateToken example_verify example_isAdmin false
    (Some "Bearer token-of-alice") example_db
  = Next_ (Req.mk alice "alice@example.com" true)
  /\ exists token user,
    token_of (Some "Bearer token-of-alice") = Some token /\ token <> ""
    /\ example_verify token = Some (Some (User._id user))
    /\ false = false
    /\ In user (users example_db)
    /\ User.isDeleted user = false
    /\ Req.mk alice "alice@example.com" true
       = Req.mk (User._id user) (User.email user) (example_isAdmin user).
Proof.
  split; [vm_compute; reflexivity|].
  apply (authenticated_user_is_active example_verify example_isAdmin false
           (Some "Bearer token-of-alice") example_db).
  vm_compute; reflexivity.
Defined.

Lemma scheme_word_ignored_witness :
  no_space "Basic" = true
  /\ authenticateToken example_verify example_isAdmin false
       (Some "Basic token-of-alice") example_db
     = authenticateToken example_verify example_isAdmin false
         (Some "Bearer token-of-alice") example_db.
Proof.
  split; [reflexivity|].
  exact (scheme_word_ignored example_verify example_isAdmin false "Basic"
           "token-of-alice" example_db eq_refl).
Defined.

Lemma header_without_token_denied_witness :
  no_space "token-of-alice" = true
  /\ authenticateToken example_verify example_isAdmin false
       (Some "token-of-alice") example_db
     = Denied 401 "Access denied".
Proof.
  split; [reflexivity|].
  exact (header_without_token_denied example_verify example_isAdmin false
           (Some "token-of-alice") example_db eq_refl).
Defined.

(** ** A closed account cannot move money *)

(** A request to a wallet route whose token verifies, but whose payload
    names only soft-deleted accounts (or none), is answered 401 "User not
    found or deleted" and leaves the database as it was, whatever it asks
    for: a soft-deleted account can neither deposit, withdraw nor
    transfer, even though its wallet is still there. *)
Theorem closed_account_cannot_transact jwt_verify isAdmin_field fl now
    authorization token id req db :
  token_of authorization = Some token -> token <> "" ->
  jwt_verify token = Some (Some id) ->
  (forall user, In user (users db) -> User._id user = id ->
                User.isDeleted user = true) ->
  api_wallet jwt_verify isAdmin_field false fl now authorization req db
  = (Json 401 "User not found or deleted", db).
Proof.
  intros Htok Hne Hv Hdel. apply String.eqb_neq in Hne.
  unfold api_wallet, authenticateToken. rewrite Htok, Hne, Hv.
  destruct (find _ (users db)) as [user|] eqn:Hf; [|reflexivity].
  apply find_some in Hf as [Hin Hid]. apply N.eqb_eq in Hid.
  rewrite (Hdel user Hin Hid). reflexivity.
Qed.

Lemma closed_account_cannot_transact_witness :
  token_of (Some "Bearer token-of-dave") = Some "token-of-dave"
  /\ "token-of-dave" <> ""
  /\ example_verify "token-of-dave" = Some (Some dave)
  /\ (forall user, In user (users example_db_closed) ->
                   User._id user = dave -> User.isDeleted user = true)
  /\ wallets example_db_closed !! dave = Some (Wallet.mk 70%Q "USD")
  /\ api_wallet example_verify example_isAdmin false no_faults 0
       (Some "Bearer token-of-dave") (Withdraw (Some 50%Q))
       example_db_closed
     = (Json 401 "User not found or deleted", example_db_closed).
Proof.
  assert (H1 : "token-of-dave" <> "") by discriminate.
  assert (H2 : forall user, In user (users example_db_closed) ->
                 User._id user = dave -> User.isDeleted user = true).
  { intros user Hin Hid. cbn in Hin.
    destruct Hin as [<- | [<- | [<- | [<- | []]]]];
      try discriminate Hid; reflexivity. }
  split; [reflexivity|]. split; [exact H1|]. split; [reflexivity|].
  split; [exact H2|]. split; [reflexivity|].
  exact (closed_account_cannot_transact example_verify example_isAdmin
           no_faults 0 (Some "Bearer token-of-dave") "token-of-dave" dave
           (Withdraw (Some 50%Q)) example_db_closed eq_refl H1 eq_refl H2).
Defined.

(** * The routes on binary64 Numbers *)

Module Binary64Facts.
Import Binary64.

#[local] Set Warnings "-inexact-float".

Lemma save_created64 (l : list Transaction.t) (doc doc' : Transaction.t) :
  <[length l := doc']> (l ++ [doc]) = l ++ [doc'].
Proof.
  rewrite insert_app_r_alt by lia.
  replace (length l - length l)%nat with 0%nat by lia. reflexivity.
Qed.

Ltac step64 :=
  repeat (cbv beta iota zeta delta
            [bind ret respond await abortTransaction commitTransaction
             no_faults Wallet_findOne Wallet_save User_findOne
             Transaction_create Transaction_save detectFraud_call annotate];
          cbn [committed session users wallets transactions fst snd
               Wallet.balance Wallet.currency];
          try match goal with
              | H : ?x = _ |- context [match ?x with _ => _ end] =>
                  rewrite H
              | |- context [match ?fl ?c with _ => _ end] =>
                  lazymatch type of fl with
                  | Faults => destruct (fl c) eqn:?
                  end
              end).

Lemma annotated_fields Transactions now userId doc :
  let doc' := annotated Transactions now userId doc in
  Transaction.fromUserId doc' = Transaction.fromUserId doc
  /\ Transaction.toUserId doc' = Transaction.toUserId doc
  /\ Transaction.amount doc' = Transaction.amount doc
  /\ Transaction.type doc' = Transaction.type doc
  /\ Transaction.currency doc' = Transaction.currency doc
  /\ Transaction.createdAt doc' = Transaction.createdAt doc.
Proof.
  unfold annotated. destruct (detectFraud _ _ _ _); cbn; auto 10.
Qed.

(** A deposit either commits nothing and reports no success, or commits the
    credited wallet together with its one transaction document. *)
Lemma deposit_outcome fl now userId amount db :
  (is_ok (fst (deposit fl now userId amount db)) = false
   /\ snd (deposit fl now userId amount db) = db)
  \/ exists a wallet,
       amount = Some a /\ bad_amount a = false
       /\ wallets db !! userId = Some wallet
       /\ deposit fl now userId amount db
          = (Ok "Deposit successful" (Wallet.balance wallet + a)%float
               (annotated (transactions db) now userId
                  (deposit_doc now userId a wallet)),
             deposited now userId a wallet db).
Proof.
  unfold deposit, route, deposit_body.
  destruct amount as [a|]; [|left; split; reflexivity].
  destruct (bad_amount a) eqn:Ha; [left; split; reflexivity|].
  destruct (wallets db !! userId) as [wallet|] eqn:Hw;
    [|step64; left; split; reflexivity].
  unfold annotated, deposited.
  destruct (detectFraud (transactions db) now userId
              (deposit_doc now userId a wallet)) eqn:Hd;
    unfold deposit_doc in *; step64;
    try (left; split; reflexivity).
  all: right; exists a, wallet;
    unfold annotated, deposit_doc; rewrite ?Hd, ?save_created64; auto.
Qed.

(** The same for a withdrawal. *)
Lemma withdraw_outcome fl now userId amount db :
  (is_ok (fst (withdraw fl now userId amount db)) = false
   /\ snd (withdraw fl now userId amount db) = db)
  \/ exists a wallet,
       amount = Some a /\ bad_amount a = false
       /\ wallets db !! userId = Some wallet
       /\ (Wallet.balance wallet <? a)%float = false
       /\ withdraw fl now userId amount db
          = (Ok "Withdrawal successful" (Wallet.balance wallet - a)%float
               (annotated (transactions db) now userId
                  (withdrawal_doc now userId a wallet)),
             withdrawn now userId a wallet db).
Proof.
  unfold withdraw, route, withdraw_body.
  destruct amount as [a|]; [|left; split; reflexivity].
  destruct (bad_amount a) eqn:Ha; [left; split; reflexivity|].
  destruct (wallets db !! userId) as [wallet|] eqn:Hw;
    [|step64; left; split; reflexivity].
  destruct (Wallet.balance wallet <? a)%float eqn:Hb;
    [step64; left; split; reflexivity|].
  unfold annotated, withdrawn.
  destruct (detectFraud (transactions db) now userId
              (withdrawal_doc now userId a wallet)) eqn:Hd;
    unfold withdrawal_doc in *; step64;
    try (left; split; reflexivity).
  all: right; exists a, wallet;
    unfold annotated, withdrawal_doc; rewrite ?Hd, ?save_created64; auto.
Qed.

(** The same for a transfer, which commits both wallets. *)
Lemma transfer_outcome fl now userId toEmail amount db :
  (is_ok (fst (transfer fl now userId toEmail amount db)) = false
   /\ snd (transfer fl now userId toEmail amount db) = db)
  \/ exists e a recipient senderWallet recipientWallet,
       toEmail = Some e /\ amount = Some a /\ bad_amount a = false
       /\ resolve e db = Some recipient
       /\ User._id recipient <> userId
       /\ wallets db !! userId = Some senderWallet
       /\ (Wallet.balance senderWallet <? a)%float = false
       /\ wallets db !! User._id recipient = Some recipientWallet
       /\ transfer fl now userId toEmail amount db
          = (Ok "Transfer successful"
               (Wallet.balance senderWallet - a)%float
               (annotated (transactions db) now userId
                  (transfer_doc now userId (User._id recipient) a
                     senderWallet)),
             transferred now userId (User._id recipient) a senderWallet
               recipientWallet db).
Proof.
  unfold transfer, route, transfer_body.
  destruct toEmail as [e|]; [|left; split; reflexivity].
  destruct amount as [a|]; [|left; split; reflexivity].
  destruct (String.eqb e ""); [left; split; reflexivity|].
  destruct (bad_amount a) eqn:Ha; [left; split; reflexivity|].
  cbn [orb].
  destruct (resolve e db) as [recipient|] eqn:Hr; unfold resolve in Hr;
    [|step64; left; split; reflexivity].
  destruct (N.eqb (User._id recipient) userId) eqn:Hself;
    [step64; left; split; reflexivity|].
  pose proof (proj1 (N.eqb_neq _ _) Hself) as Hne.
  destruct (wallets db !! userId) as [senderWallet|] eqn:Hs;
    [|step64; left; split; reflexivity].
  destruct (Wallet.balance senderWallet <? a)%float eqn:Hb;
    [step64; left; split; reflexivity|].
  destruct (wallets db !! User._id recipient) as [recipientWallet|] eqn:Hrw;
    [|step64; left; split; reflexivity].
  unfold annotated, transferred.
  destruct (detectFraud (transactions db) now userId
              (transfer_doc now userId (User._id recipient) a senderWallet))
    eqn:Hd;
    unfold transfer_doc in *; step64;
    try (left; split; reflexivity).
  all: right; exists e, a, recipient, senderWallet, recipientWallet;
    unfold annotated, transfer_doc, resolve;
    rewrite ?Hd, ?save_created64; repeat split; auto.
Qed.

(** A transfer that passes every check, when no call rejects. *)
Lemma transfer_goes_through now userId e a recipient senderWallet
    recipientWallet db :
  e <> "" -> bad_amount a = false -> resolve e db = Some recipient ->
  User._id recipient <> userId ->
  wallets db !! userId = Some senderWallet ->
  (Wallet.balance senderWallet <? a)%float = false ->
  wallets db !! User._id recipient = Some recipientWallet ->
  transfer no_faults now userId (Some e) (Some a) db
  = (Ok "Transfer successful" (Wallet.balance senderWallet - a)%float
       (annotated (transactions db) now userId
          (transfer_doc now userId (User._id recipient) a senderWallet)),
     transferred now userId (User._id recipient) a senderWallet
       recipientWallet db).
Proof.
  intros He Ha Hr Hself Hs Hb Hrw.
  apply String.eqb_neq in He. apply N.eqb_neq in Hself.
  unfold resolve in Hr.
  unfold transfer, route, transfer_body. rewrite He, Ha. cbn [orb].
  unfold annotated, transferred.
  destruct (detectFraud (transactions db) now userId
              (transfer_doc now userId (User._id recipient) a senderWallet))
    eqn:Hd;
    unfold transfer_doc in *; step64;
    unfold annotated, transfer_doc; rewrite ?Hd, ?save_created64;
    reflexivity.
Qed.

(** ** C1: what a transfer does to the two balances *)




(** ** C10: no currency check in a transfer *)

(** C10.  A transfer that passes the checks of the route (a non-empty
    email resolving to another account, an amount that is not falsy and not
    [<= 0], a sender's wallet whose balance is not below the amount, a
    recipient's wallet) succeeds when no call rejects; and whenever it
    succeeds, under any oracle, the recorded transaction carries the
    currency of the sender's wallet and the recipient's wallet has its
    balance replaced by [balance + amount] (the binary64 sum) and its own
    currency untouched.  None of the checks reads a currency: the statement
    has no premise relating the two.  (The case of a NaN result, which
    Mongoose's Number cast does not save, is left out.) *)
Theorem transfer_credits_any_currency now X e A recipient wx wy db :
  e <> "" -> bad_amount A = false ->
  resolve e db = Some recipient -> User._id recipient <> X ->
  wallets db !! X = Some wx ->
  (Wallet.balance wx <? A)%float = false ->
  wallets db !! User._id recipient = Some wy ->
  PrimFloat.is_nan (Wallet.balance wx - A)%float = false ->
  PrimFloat.is_nan (Wallet.balance wy + A)%float = false ->
  (exists tx db',
      transfer no_faults now X (Some e) (Some A) db
      = (Ok "Transfer successful" (Wallet.balance wx - A)%float tx, db')
      /\ Transaction.currency tx = Wallet.currency wx
      /\ wallets db' !! User._id recipient
         = Some (Wallet.mk (Wallet.balance wy + A)%float
                   (Wallet.currency wy))
      /\ last (transactions db') = Some tx)
  /\ (forall fl m b tx db',
        transfer fl now X (Some e) (Some A) db = (Ok m b tx, db') ->
        Transaction.currency tx = Wallet.currency wx
        /\ wallets db' !! User._id recipient
           = Some (Wallet.mk (Wallet.balance wy + A)%float
                     (Wallet.currency wy))
        /\ last (transactions db') = Some tx).
Proof.
  intros He Ha Hr Hne Hs Hb Hrw _ _.
  pose proof (annotated_fields (transactions db) now X
                (transfer_doc now X (User._id recipient) A wx))
    as (_ & _ & _ & _ & Hcur & _).
  assert (Hpost :
    Transaction.currency
      (annotated (transactions db) now X
         (transfer_doc now X (User._id recipient) A wx))
    = Wallet.currency wx
    /\ wallets (transferred now X (User._id recipient) A wx wy db)
         !! User._id recipient
       = Some (Wallet.mk (Wallet.balance wy + A)%float (Wallet.currency wy))
    /\ last (transactions (transferred now X (User._id recipient) A wx wy db))
       = Some (annotated (transactions db) now X
                 (transfer_doc now X (User._id recipient) A wx))).
  { unfold transferred; cbn [wallets transactions].
    rewrite lookup_insert_eq, last_snoc. auto. }
  split.
  - eexists _, _. split; [|exact Hpost].
    apply (transfer_goes_through now X e A recipient wx wy db); assumption.
  - intros fl m b tx db' Hrun.
    destruct (transfer_outcome fl now X (Some e) (Some A) db)
      as [[Hno _] | (e' & a & r' & sw & rw & [= <-] & [= <-] & _ & Hr'
                     & _ & Hs' & _ & Hrw' & Heq)].
    { rewrite Hrun in Hno. discriminate Hno. }
    rewrite Hr in Hr'. injection Hr' as <-.
    rewrite Hs in Hs'. injection Hs' as <-.
    rewrite Hrw in Hrw'. injection Hrw' as <-.
    rewrite Hrun in Heq. injection Heq as -> -> -> ->. exact Hpost.
Qed.

Lemma transfer_credits_any_currency_witness :
  "bob@example.com" <> ""
  /\ bad_amount 10 = false
  /\ resolve "bob@example.com" two_currency_db
     = Some (User.mk bob "bob@example.com" false)
  /\ bob <> alice
  /\ wallets two_currency_db !! alice = Some (Wallet.mk 2000 "USD")
  /\ (2000 <? 10)%float = false
  /\ wallets two_currency_db !! bob = Some (Wallet.mk 0 "EUR")
  /\ PrimFloat.is_nan (2000 - 10)%float = false
  /\ PrimFloat.is_nan (0 + 10)%float = false
  /\ (exists tx db',
         transfer no_faults 0 alice (Some "bob@example.com") (Some 10%float)
           two_currency_db
         = (Ok "Transfer successful" (2000 - 10)%float tx, db')
         /\ Transaction.currency tx = "USD"
         /\ wallets db' !! bob = Some (Wallet.mk (0 + 10)%float "EUR")
         /\ last (transactions db') = Some tx)
  /\ (forall fl m b tx db',
        transfer fl 0 alice (Some "bob@example.com") (Some 10%float)
          two_currency_db = (Ok m b tx, db') ->
        Transaction.currency tx = "USD"
        /\ wallets db' !! bob = Some (Wallet.mk (0 + 10)%float "EUR")
        /\ last (transactions db') = Some tx).
Proof.
  assert (H1 : "bob@example.com" <> "") by discriminate.
  assert (H2 : bob <> alice) by discriminate.
  split; [exact H1|]. split; [reflexivity|]. split; [reflexivity|].
  split; [exact H2|]. split; [reflexivity|]. split; [reflexivity|].
  split; [reflexivity|]. split; [reflexivity|]. split; [reflexivity|].
  exact (transfer_credits_any_currency 0 alice "bob@example.com" 10%float
           (User.mk bob "bob@example.com" false) (Wallet.mk 2000 "USD")
           (Wallet.mk 0 "EUR") two_currency_db H1 eq_refl eq_refl H2 eq_refl
           eq_refl eq_refl eq_refl eq_refl).
Defined.

(** ** C8: the three rules and their order *)

Lemma filter_decide {A} (p : A -> bool) (P : A -> Prop)
    `{forall x, Decision (P x)} (l : list A) :
  (forall x, p x = true <-> P x) -> List.filter p l = filter P l.
Proof.
  intros Hp. induction l as [|x l IH]; [reflexivity|].
  cbn [List.filter]. destruct (p x) eqn:E.
  - rewrite filter_cons_True by (apply Hp; exact E). rewrite IH. reflexivity.
  - rewrite filter_cons_False; [exact IH|].
    intros HP. apply Hp in HP. congruence.
Qed.

(** C8, as the code has it.  [detectFraud] tries its rules in the order
    velocity, large withdrawal, statistical outlier, and the first that
    matches decides.  The outlier rule looks at [S], the transactions of the
    collection, in collection order, that have the actor as source or as
    destination and [createdAt >= now - 30 days]; when the two earlier rules
    do not match, the answer is "Transaction amount significantly higher
    than average" if [S] is non-empty and the amount is above the threshold
    the code computes in binary64 (the amounts of [S] added one by one from
    0, the sum divided by the length, the quotient times 3, each operation
    rounded), and no flag otherwise; in particular no flag when [S] is
    empty. *)
Theorem detectFraud_rules_binary64 Transactions now userId doc :
  let S := recentTransactions Transactions now userId in
  let velocity :=
    Transaction.type doc = TRANSFER
    /\ (5 <= length (recentTransfers Transactions now userId))%nat in
  let large :=
    Transaction.type doc = WITHDRAWAL
    /\ (1000 <? Transaction.amount doc)%float = true in
  let threshold :=
    (fold_left (fun sum t => sum + Transaction.amount t) S 0
     / of_length (length S) * 3)%float in
  let outlier :=
    S <> [] /\ (threshold <? Transaction.amount doc)%float = true in
  S = filter (fun t =>
                (Transaction.fromUserId t = Some userId
                 \/ Transaction.toUserId t = Some userId)
                /\ (now - 2592000000 <= Transaction.createdAt t)%Z)
        Transactions
  /\ (velocity ->
      detectFraud Transactions now userId doc
      = Some "Multiple transfers in a short period")
  /\ (~ velocity -> large ->
      detectFraud Transactions now userId doc = Some "Large withdrawal")
  /\ (~ velocity -> ~ large -> outlier ->
      detectFraud Transactions now userId doc
      = Some "Transaction amount significantly higher than average")
  /\ (~ velocity -> ~ large -> ~ outlier ->
      detectFraud Transactions now userId doc = None)
  /\ (~ velocity -> ~ large -> S = [] ->
      detectFraud Transactions now userId doc = None).
Proof.
  intros S velocity large threshold outlier.
  assert (HS : S = filter (fun t =>
                  (Transaction.fromUserId t = Some userId
                   \/ Transaction.toUserId t = Some userId)
                  /\ (now - 2592000000 <= Transaction.createdAt t)%Z)
                Transactions).
  { unfold S, recentTransactions. apply filter_decide. intros t.
    rewrite andb_true_iff, orb_true_iff, Z.leb_le.
    assert (Hopt : forall o, opt_eqb o userId = true <-> o = Some userId).
    { intros [i|]; cbn; [rewrite N.eqb_eq|]; split; congruence. }
    rewrite !Hopt. reflexivity. }
  assert (Hv : TxType_eqb (Transaction.type doc) TRANSFER
               && (5 <=? length (recentTransfers Transactions now userId))%nat
               = true <-> velocity).
  { unfold velocity. rewrite andb_true_iff, Nat.leb_le.
    destruct (Transaction.type doc); cbn; intuition congruence. }
  assert (Hl : TxType_eqb (Transaction.type doc) WITHDRAWAL
               && (1000 <? Transaction.amount doc)%float = true <-> large).
  { unfold large. rewrite andb_true_iff.
    destruct (Transaction.type doc); cbn; intuition congruence. }
  assert (Ho : (0 <? length S)%nat
               && (avgAmount S * 3 <? Transaction.amount doc)%float = true
               <-> outlier).
  { unfold outlier, threshold, avgAmount. rewrite andb_true_iff, Nat.ltb_lt.
    assert (Hne : (0 < length S)%nat <-> S <> []).
    { destruct S; cbn; split; intros; try congruence; lia. }
    rewrite Hne. reflexivity. }
  assert (Hempty : S = [] -> ~ outlier) by (intros HS' [Hne _]; auto).
  split; [exact HS|]. clear HS.
  unfold detectFraud. fold S.
  destruct (TxType_eqb (Transaction.type doc) TRANSFER
            && (5 <=? length (recentTransfers Transactions now userId))%nat)
    eqn:Ev;
  destruct (TxType_eqb (Transaction.type doc) WITHDRAWAL
            && (1000 <? Transaction.amount doc)%float) eqn:El;
  destruct ((0 <? length S)%nat
            && (avgAmount S * 3 <? Transaction.amount doc)%float) eqn:Eo.
  all: repeat split; intros; try reflexivity; exfalso.
  all: repeat match goal with
         | H : true = true <-> _ |- _ => apply proj1 in H; specialize (H eq_refl)
         | H : false = true <-> _ |- _ =>
             apply proj2 in H;
             assert (~ _) by (let X := fresh in intro X; apply H in X; discriminate X);
             clear H
         end.
  all: try tauto.
  all: try (apply Hempty; assumption || tauto).
Qed.

(** The claim as the spec words it, with 3 times the arithmetic mean, fails
    in both directions.  Over the history of two deposits of 0.3 and 2.1, a
    deposit of 3.6 is flagged by the code (its threshold comes out as
    3.5999999999999996), although 3 times the mean of the two amounts is
    not below 3.6; and over a history of one deposit of 0.1, a deposit of
    0.30000000000000004 is not flagged (the threshold comes out as that
    same number), although 3 times the mean is below it. *)
Lemma outlier_rounding_counterexample :
  detectFraud two_deposits 5000 alice (deposit_of 3.6 5000) = Some OUTLIER
  /\ recentTransactions two_deposits 5000 alice = two_deposits
  /\ (avgAmount two_deposits * 3)%float = 3.5999999999999996%float
  /\ match exact_mean two_deposits, exact 3.6 with
     | Some mean, Some a => Qltb (3 * mean) a
     | _, _ => true
     end = false
  /\ detectFraud [deposit_of 0.1 1000] 5000 alice
       (deposit_of 0.30000000000000004 5000) = None
  /\ recentTransactions [deposit_of 0.1 1000] 5000 alice
     = [deposit_of 0.1 1000]
  /\ (avgAmount [deposit_of 0.1 1000] * 3)%float
     = 0.30000000000000004%float
  /\ match exact_mean [deposit_of 0.1 1000],
           exact 0.30000000000000004 with
     | Some mean, Some a => Qltb (3 * mean) a
     | _, _ => false
     end = true.
Proof.
  repeat split; vm_compute; reflexivity.
Qed.

(** ** Deposit and withdrawal *)

(** Whenever [/deposit] answers with success, the amount was not falsy and
    not [<= 0], the actor had a wallet, the stored balance is the binary64
    sum of the old balance and the amount and is the balance reported, and
    the returned document is a DEPOSIT of that amount to the actor, with no
    source, in the wallet's currency. *)
Theorem deposit_credits fl now userId amount db m b tx db' :
  deposit fl now userId amount db = (Ok m b tx, db') ->
  exists a wallet,
    amount = Some a /\ bad_amount a = false
    /\ wallets db !! userId = Some wallet
    /\ b = (Wallet.balance wallet + a)%float
    /\ wallets db' !! userId
       = Some (Wallet.mk (Wallet.balance wallet + a)%float
                 (Wallet.currency wallet))
    /\ Transaction.type tx = DEPOSIT
    /\ Transaction.fromUserId tx = None
    /\ Transaction.toUserId tx = Some userId
    /\ Transaction.amount tx = a
    /\ Transaction.currency tx = Wallet.currency wallet.
Proof.
  intros Hrun.
  destruct (deposit_outcome fl now userId amount db)
    as [[Hno _] | (a & w & Ha & Hpos & Hw & Heq)].
  { rewrite Hrun in Hno. discriminate Hno. }
  rewrite Hrun in Heq. injection Heq as -> -> -> ->.
  exists a, w.
  pose proof (annotated_fields (transactions db) now userId
                (deposit_doc now userId a w))
    as (Hf & Ht & Hamt & Hty & Hcur & _).
  unfold deposited; cbn [wallets]. rewrite lookup_insert_eq.
  repeat split; auto.
Qed.

Lemma deposit_credits_witness :
  deposit no_faults 0 alice (Some 0.1%float) cents_db
  = (Ok "Deposit successful" 0.4
       (Transaction.mk None (Some alice) 0.1 DEPOSIT "USD" false None false
          0),
     snd (deposit no_faults 0 alice (Some 0.1%float) cents_db))
  /\ exists a wallet,
    Some 0.1%float = Some a /\ bad_amount a = false
    /\ wallets cents_db !! alice = Some wallet
    /\ 0.4%float = (Wallet.balance wallet + a)%float
    /\ wallets (snd (deposit no_faults 0 alice (Some 0.1%float) cents_db))
         !! alice
       = Some (Wallet.mk (Wallet.balance wallet + a)%float
                 (Wallet.currency wallet))
    /\ DEPOSIT = DEPOSIT
    /\ @None ObjectId = None
    /\ Some alice = Some alice
    /\ 0.1%float = a
    /\ "USD" = Wallet.currency wallet.
Proof.
  split; [vm_compute; reflexivity|].
  apply (deposit_credits no_faults 0 alice (Some 0.1%float) cents_db
           "Deposit successful" 0.4%float
           (Transaction.mk None (Some alice) 0.1 DEPOSIT "USD" false None
              false 0)).
  vm_compute; reflexivity.
Defined.

(** Whenever [/withdraw] answers with success, the amount was not falsy and
    not [<= 0], the actor's balance was not below it, the stored balance is
    the binary64 difference of the old balance and the amount and is the
    balance reported, and the returned document is a WITHDRAWAL of that
    amount from the actor, with no destination, in the wallet's currency. *)
Theorem withdraw_debits fl now userId amount db m b tx db' :
  withdraw fl now userId amount db = (Ok m b tx, db') ->
  exists a wallet,
    amount = Some a /\ bad_amount a = false
    /\ wallets db !! userId = Some wallet
    /\ (Wallet.balance wallet <? a)%float = false
    /\ b = (Wallet.balance wallet - a)%float
    /\ wallets db' !! userId
       = Some (Wallet.mk (Wallet.balance wallet - a)%float
                 (Wallet.currency wallet))
    /\ Transaction.type tx = WITHDRAWAL
    /\ Transaction.fromUserId tx = Some userId
    /\ Transaction.toUserId tx = None
    /\ Transaction.amount tx = a
    /\ Transaction.currency tx = Wallet.currency wallet.
Proof.
  intros Hrun.
  destruct (withdraw_outcome fl now userId amount db)
    as [[Hno _] | (a & w & Ha & Hpos & Hw & Hle & Heq)].
  { rewrite Hrun in Hno. discriminate Hno. }
  rewrite Hrun in Heq. injection Heq as -> -> -> ->.
  exists a, w.
  pose proof (annotated_fields (transactions db) now userId
                (withdrawal_doc now userId a w))
    as (Hf & Ht & Hamt & Hty & Hcur & _).
  unfold withdrawn; cbn [wallets]. rewrite lookup_insert_eq.
  repeat split; auto.
Qed.

Lemma withdraw_debits_witness :
  withdraw no_faults 0 bob (Some 0.3%float) cents_db
  = (Ok "Withdrawal successful" 0.39999999999999997
       (Transaction.mk (Some bob) None 0.3 WITHDRAWAL "USD" false None false
          0),
     snd (withdraw no_faults 0 bob (Some 0.3%float) cents_db))
  /\ exists a wallet,
    Some 0.3%float = Some a /\ bad_amount a = false
    /\ wallets cents_db !! bob = Some wallet
    /\ (Wallet.balance wallet <? a)%float = false
    /\ 0.39999999999999997%float = (Wallet.balance wallet - a)%float
    /\ wallets (snd (withdraw no_faults 0 bob (Some 0.3%float) cents_db))
         !! bob
       = Some (Wallet.mk (Wallet.balance wallet - a)%float
                 (Wallet.currency wallet))
    /\ WITHDRAWAL = WITHDRAWAL
    /\ Some bob = Some bob
    /\ @None ObjectId = None
    /\ 0.3%float = a
    /\ "USD" = Wallet.currency wallet.
Proof.
  split; [vm_compute; reflexivity|].
  apply (withdraw_debits no_faults 0 bob (Some 0.3%float) cents_db
           "Withdrawal successful" 0.39999999999999997%float
           (Transaction.mk (Some bob) None 0.3 WITHDRAWAL "USD" false None
              false 0)).
  vm_compute; reflexivity.
Defined.

End Binary64Facts.
